(** * btop server: CPU sampling, memory accounting and process listing

    A shallow embedding of [server/index.ts]: [getCpuUsage], [getProcesses],
    [formatBytes], [getMemoryInfo] and [getSystemMetrics], with the
    properties of the metrics pipeline proved about it.

    Conventions of the embedding.
    - The counters of [os.cpus()], the byte counts of [os.totalmem()] and
      [os.freemem()] and the page and kilobyte counts read from the output
      of [vm_stat] and [/proc/meminfo] are integers; the code only adds,
      subtracts and multiplies them, which the doubles of the runtime do
      exactly below 2^53. They are modelled in [Z].
    - Every quotient the code takes, [Math.round] of it, and the numbers of
      a process row are binary64 numbers ([float]), as in the runtime: [NaN],
      the signed zeros and the rounding of a division are those of the code.
    - The built-ins that turn doubles into decimal text and back, and
      [Math.log] and [Math.pow], are parameters ([Runtime]).
    - A string is a sequence of code units below 256 ([string]).
    - The module-level array [prevCpuTimes] is a finite map from the core
      index to the last reading; a hole of the array is an absent key.
    - A rejected promise or a thrown exception is the [Thrown] outcome, and
      [await] is the sequencing of outcomes. *)

From Stdlib Require Import ZArith Floats Ascii String DecimalString.
From stdpp Require Import gmap list strings.

Local Open Scope string_scope.
Local Open Scope Z_scope.

(** ** Numbers *)

(** The double nearest to an integer: the number a JavaScript integer
    expression denotes. *)
Definition Z2Num (z : Z) : float :=
  SF2Prim (binary_normalize prec emax z 0 false).

(** [Math.round]: the closest integer, a tie going towards +infinity; [-0] for
    an argument in [[-0.5, 0)]; [NaN], the infinities and the zeros are
    returned as they are. A finite double is [±m * 2^e]. *)
Definition Math_round (x : float) : float :=
  match Prim2SF x with
  | S754_finite s m e =>
      if 0 <=? e then x
      else
        let v := if s then Z.neg m else Z.pos m in
        let n := (2 * v + 2 ^ (- e)) / 2 ^ (1 - e) in
        if (n =? 0) && s then neg_zero else Z2Num n
  | _ => x
  end.

(** [Math.floor]. *)
Definition Math_floor (x : float) : float :=
  match Prim2SF x with
  | S754_finite s m e =>
      if 0 <=? e then x
      else
        let v := if s then Z.neg m else Z.pos m in
        Z2Num (v / 2 ^ (- e))
  | _ => x
  end.

(** [(a / b) * 100] on doubles, for integers [a] and [b]. *)
Definition ratio100 (a b : Z) : float :=
  PrimFloat.mul (PrimFloat.div (Z2Num a) (Z2Num b)) 100%float.

(** [Math.round((a / b) * 100)]. *)
Definition percent_of (a b : Z) : float := Math_round (ratio100 a b).

(** ** Outcomes of effectful calls *)

(** What a call that can throw (or a promise that can reject) ends with. *)
Inductive Outcome (A : Type) : Type :=
  | Returned (a : A)
  | Thrown (error : string).
Arguments Returned {A} a.
Arguments Thrown {A} error.

(** Sequencing of calls that can throw: [await]. *)
Definition bind {A B : Type} (m : Outcome A) (k : A → Outcome B) : Outcome B :=
  match m with
  | Returned a => k a
  | Thrown e => Thrown e
  end.

Notation "'await' x ← m ; k" := (bind m (λ x, k))
  (at level 10, x name, m at level 100, k at level 200,
   format "'[v' 'await'  x  ←  m ; '/' k ']'").

(** [try { body } catch (error) { handler }]. *)
Definition try_catch {A : Type} (body : Outcome A) (handler : string → Outcome A)
    : Outcome A :=
  match body with
  | Returned a => Returned a
  | Thrown e => handler e
  end.

(** ** CPU sampling *)

(** [cpu.times] of [os.cpus()]. *)
Record CpuTimes : Type := mkTimes
  { user : Z; nice : Z; sys : Z; idle : Z; irq : Z }.

(** One element of [os.cpus()]. *)
Record CpuInfo : Type := mkCpu
  { model : string; speed : Z; times : CpuTimes }.

Module CpuUsage.
Record t : Type := mk
  { core : nat; usage : float; user : float; system : float; idle : float }.
End CpuUsage.

(** [prevCpuTimes]. *)
Abbreviation Cache := (gmap nat CpuTimes).

Definition total_of (t : CpuTimes) : Z :=
  user t + nice t + sys t + idle t + irq t.

(** The entry pushed for one core: the three branches of the callback. *)
Definition core_usage (prev : option CpuTimes) (index : nat) (cpu : CpuInfo)
    : CpuUsage.t :=
  let total := total_of (times cpu) in
  match prev with
  | Some prev =>
      let prevTotal := total_of prev in
      let totalDiff := total - prevTotal in
      let idleDiff := idle (times cpu) - idle prev in
      let userDiff := user (times cpu) - user prev in
      let sysDiff := sys (times cpu) - sys prev in
      if 0 <? totalDiff then
        {| CpuUsage.core := index;
           CpuUsage.usage := percent_of (totalDiff - idleDiff) totalDiff;
           CpuUsage.user := percent_of userDiff totalDiff;
           CpuUsage.system := percent_of sysDiff totalDiff;
           CpuUsage.idle := percent_of idleDiff totalDiff |}
      else
        {| CpuUsage.core := index;
           CpuUsage.usage := 0%float;
           CpuUsage.user := 0%float;
           CpuUsage.system := 0%float;
           CpuUsage.idle := 100%float |}
  | None =>
      let usagePercent := percent_of (total - idle (times cpu)) total in
      {| CpuUsage.core := index;
         CpuUsage.usage := usagePercent;
         CpuUsage.user := percent_of (user (times cpu)) total;
         CpuUsage.system := percent_of (sys (times cpu)) total;
         CpuUsage.idle := percent_of (idle (times cpu)) total |}
  end.

(** The state the [forEach] callback works on: the cache and the array
    [usage] built so far. *)
Definition SamplerState : Type := Cache * list CpuUsage.t.

(** The callback of [cpuInfo.forEach((cpu, index) => ...)]: look the previous
    reading up, push the entry, store a copy of the current reading. *)
Definition sample_step (cpu : CpuInfo) (index : nat) (st : SamplerState)
    : SamplerState :=
  let prev := st.1 !! index in
  (<[index := times cpu]> st.1, (st.2 ++ [core_usage prev index cpu])%list).

(** [forEach] from a given index on. *)
Fixpoint forEach_from (index : nat) (cpuInfo : list CpuInfo) (st : SamplerState)
    : SamplerState :=
  match cpuInfo with
  | [] => st
  | cpu :: rest => forEach_from (S index) rest (sample_step cpu index st)
  end.

(** [getCpuUsage()], given what [cpus()] returns and the cache: the array
    returned and the cache left behind. *)
Definition getCpuUsage (cpuInfo : list CpuInfo) (prevCpuTimes : Cache)
    : list CpuUsage.t * Cache :=
  let st := forEach_from 0 cpuInfo (prevCpuTimes, []) in
  (st.2, st.1).

(** ** Strings *)

(** White space and line terminators: what [trim] strips and what [\s]
    matches, among the code units below 256 (TAB, LF, VT, FF, CR, SPACE and
    NBSP). *)
Definition is_space (c : ascii) : bool :=
  let n := nat_of_ascii c in
  ((9 <=? n) && (n <=? 13) || (n =? 32) || (n =? 160))%nat.

(** [\d]. *)
Definition is_digit (c : ascii) : bool :=
  let n := nat_of_ascii c in ((48 <=? n) && (n <=? 57))%nat.

Definition newline : ascii := "010"%char.

Fixpoint trimStart (s : string) : string :=
  match s with
  | EmptyString => EmptyString
  | String c s' => if is_space c then trimStart s' else s
  end.

Fixpoint trimEnd (s : string) : string :=
  match s with
  | EmptyString => EmptyString
  | String c s' =>
      match trimEnd s' with
      | EmptyString => if is_space c then EmptyString else String c EmptyString
      | r => String c r
      end
  end.

(** [s.trim()]. *)
Definition trim (s : string) : string := trimEnd (trimStart s).

(** [s.split(sep)] for a separator of one code unit. The head of the list is
    the piece that the characters read so far belong to. *)
Fixpoint split (sep : ascii) (s : string) : list string :=
  match s with
  | EmptyString => [EmptyString]
  | String c s' =>
      if Ascii.eqb c sep then EmptyString :: split sep s'
      else
        match split sep s' with
        | piece :: rest => String c piece :: rest
        | [] => [String c EmptyString]
        end
  end.

(** [s.split(/\s+/)]: a piece ends where a run of white space starts, and the
    next one starts where the run ends; [in_run] says that the character
    before was white space. A string that starts (ends) with white space has
    an empty first (last) piece, and the empty string has one empty piece. *)
Fixpoint split_spaces_from (in_run : bool) (s : string) : list string :=
  match s with
  | EmptyString => [EmptyString]
  | String c s' =>
      if is_space c then
        if in_run then split_spaces_from true s'
        else EmptyString :: split_spaces_from true s'
      else
        match split_spaces_from false s' with
        | piece :: rest => String c piece :: rest
        | [] => [String c EmptyString]
        end
  end.

Definition split_spaces (s : string) : list string := split_spaces_from false s.

(** [parts.join(sep)]. *)
Fixpoint join (sep : string) (parts : list string) : string :=
  match parts with
  | [] => EmptyString
  | [p] => p
  | p :: rest => p ++ sep ++ join sep rest
  end.

(** [s.startsWith(p)]. *)
Definition startsWith (p s : string) : bool := String.prefix p s.

(** [s.includes(p)]. *)
Fixpoint includes (p s : string) : bool :=
  String.prefix p s ||
  match s with
  | EmptyString => false
  | String _ s' => includes p s'
  end.

(** The longest prefix of digits. *)
Fixpoint takeDigits (s : string) : string :=
  match s with
  | String c s' => if is_digit c then String c (takeDigits s') else EmptyString
  | EmptyString => EmptyString
  end.

Fixpoint dropDigits (s : string) : string :=
  match s with
  | String c s' => if is_digit c then dropDigits s' else s
  | EmptyString => EmptyString
  end.

(** [s.match(/(\d+)/)?.[1]]: the first run of digits, if there is one. *)
Fixpoint match_digits (s : string) : option string :=
  match s with
  | EmptyString => None
  | String c s' => if is_digit c then Some (takeDigits s) else match_digits s'
  end.

(** What is left of [s] after the prefix [p], if [p] is a prefix. *)
Fixpoint strip_prefix (p s : string) : option string :=
  match p, s with
  | EmptyString, _ => Some s
  | String a p', String b s' => if Ascii.eqb a b then strip_prefix p' s' else None
  | String _ _, EmptyString => None
  end.

(** The pattern [/page size of (\d+) bytes/] tried at the start of [s]. The
    digits are matched greedily; giving digits back cannot help, since a
    digit is not the space that [" bytes"] starts with. *)
Definition page_size_here (s : string) : option string :=
  match strip_prefix "page size of " s with
  | Some r =>
      let d := takeDigits r in
      match d, strip_prefix " bytes" (dropDigits r) with
      | String _ _, Some _ => Some d
      | _, _ => None
      end
  | None => None
  end.

(** [s.match(/page size of (\d+) bytes/)]: the capture of the leftmost match. *)
Fixpoint match_page_size (s : string) : option string :=
  match page_size_here s with
  | Some d => Some d
  | None =>
      match s with
      | EmptyString => None
      | String _ s' => match_page_size s'
      end
  end.

(** The value of a string of decimal digits, most significant first. *)
Fixpoint digits_value_from (acc : Z) (s : string) : Z :=
  match s with
  | EmptyString => acc
  | String c s' => digits_value_from (10 * acc + (Z.of_nat (nat_of_ascii c) - 48)) s'
  end.

Definition digits_value (s : string) : Z := digits_value_from 0 s.

(** [parseInt(s, 10)]: leading white space is skipped, then an optional sign,
    then the longest run of digits is read; the result is [NaN] when there is
    no digit, and else the double nearest to the integer read, negated after
    a minus sign (so ["-0"] gives [-0]). *)
Definition parseInt (s : string) : float :=
  let s := trimStart s in
  let '(negative, s) :=
    match s with
    | String c s' =>
        if Ascii.eqb c "-" then (true, s')
        else if Ascii.eqb c "+" then (false, s')
        else (false, s)
    | EmptyString => (false, s)
    end in
  match takeDigits s with
  | EmptyString => nan
  | d =>
      let number := Z2Num (digits_value d) in
      if negative then PrimFloat.opp number else number
  end.

(** ** The runtime *)

(** A value that is a string or a number: [formatBytes] is declared to return
    a string and returns the number [NaN] where [sizes[i]] is undefined. *)
Inductive Value : Type :=
  | VString (s : string)
  | VNumber (x : float).

(** The built-ins of the runtime that convert between doubles and decimal
    text, and the logarithm and power, which the language leaves to the
    implementation to approximate. *)
Class Runtime : Type :=
  { Math_log : float → float;
    Math_pow : float → float → float;
    toFixed : float → nat → string;
    parseFloat : string → float;
    Number_toString : float → string }.

(** What one poll observes of the host. [cpus()] is called once by
    [getSystemMetrics] and once more by [getCpuUsage]; [exec] is what
    [execAsync] resolves or rejects with, by command line. *)
Record Host : Type :=
  { hostname : string;
    platform : string;
    arch : string;
    uptime : float;
    loadavg : list float;
    cpus : list CpuInfo;
    cpus_again : list CpuInfo;
    totalmem : Z;
    freemem : Z;
    exec : string → Outcome string;
    Date_now : Z }.

(** ** Process listing *)

Module ProcessInfo.
Record t : Type := mk
  { pid : float;
    user : string;
    cpu : float;
    mem : float;
    vsz : Value;
    rss : Value;
    tty : string;
    stat : string;
    start : string;
    time : string;
    command : string }.
End ProcessInfo.

Section Processes.
Context `{Runtime}.

(** [sizes[i]] for a number [i]: the element at an index from 0 to 4 ([-0]
    is the index 0), [undefined] for any other number. *)
Definition sizes_at (i : float) : option string :=
  if PrimFloat.eqb i 0 then Some "B"
  else if PrimFloat.eqb i 1 then Some "K"
  else if PrimFloat.eqb i 2 then Some "M"
  else if PrimFloat.eqb i 3 then Some "G"
  else if PrimFloat.eqb i 4 then Some "T"
  else None.

(** [formatBytes(bytes)]. A number added to a string is its text followed
    by the string; a number added to [undefined] is [NaN]. *)
Definition formatBytes (bytes : float) : Value :=
  if PrimFloat.eqb bytes 0 then VString "0 B"
  else
    let k := 1024%float in
    let i := Math_floor (PrimFloat.div (Math_log bytes) (Math_log k)) in
    let x := parseFloat (toFixed (PrimFloat.div bytes (Math_pow k i)) 1) in
    match sizes_at i with
    | Some unit => VString (Number_toString x ++ unit)
    | None => VNumber (PrimFloat.add x nan)
    end.

(** The object pushed for a line split into [parts]. *)
Definition process_of (parts : list string) : ProcessInfo.t :=
  {| ProcessInfo.user := parts !!! 0%nat;
     ProcessInfo.pid := parseInt (parts !!! 1%nat);
     ProcessInfo.cpu := parseFloat (parts !!! 2%nat);
     ProcessInfo.mem := parseFloat (parts !!! 3%nat);
     ProcessInfo.vsz :=
       formatBytes (PrimFloat.mul (parseInt (parts !!! 4%nat)) 1024);
     ProcessInfo.rss :=
       formatBytes (PrimFloat.mul (parseInt (parts !!! 5%nat)) 1024);
     ProcessInfo.tty := parts !!! 6%nat;
     ProcessInfo.stat := parts !!! 7%nat;
     ProcessInfo.start := parts !!! 8%nat;
     ProcessInfo.time := parts !!! 9%nat;
     ProcessInfo.command := substring 0 80 (join " " (drop 10 parts)) |}.

(** The body of the [for] loop, for the line [line]. *)
Definition push_line (line : string) (processes : list ProcessInfo.t)
    : list ProcessInfo.t :=
  let parts := split_spaces (trim line) in
  if (11 <=? length parts)%nat then (processes ++ [process_of parts])%list
  else processes.

(** The [for] loop over the lines that are left. *)
Fixpoint for_lines (lines : list string) (processes : list ProcessInfo.t)
    : list ProcessInfo.t :=
  match lines with
  | [] => processes
  | line :: rest => for_lines rest (push_line line processes)
  end.

(** The command line chosen for the platform. *)
Definition ps_command (os : string) : string :=
  if String.eqb os "darwin" then "ps aux -r | head -50"
  else "ps aux --sort=-%cpu | head -50".

(** [getProcesses()]. The loop starts at the line of index 1. What the
    [catch] writes to the console is not part of the result. *)
Definition getProcesses (h : Host) : Outcome (list ProcessInfo.t) :=
  let os := platform h in
  let command := ps_command os in
  try_catch
    (await stdout ← exec h command;
     let lines := split newline (trim stdout) in
     Returned (for_lines (drop 1 lines) []))
    (λ error, Returned []).
End Processes.

(** ** Memory accounting *)

Module MemoryInfo.
Record t : Type := mk
  { total : Z; free : Z; used : Z; percent : float }.
End MemoryInfo.

(** The four counters the loop over the lines of [vm_stat] assigns. *)
Record PageCounts : Type := mkPages
  { freePages : Z; inactivePages : Z; purgeablePages : Z; speculativePages : Z }.

(** [parseInt(line.match(/(\d+)/)?.[1] || "0", 10)]: the argument of
    [parseInt] is a string of digits that is not empty, and the result is the
    integer it spells (lemma [parseInt_line_number]). *)
Definition line_number (line : string) : Z :=
  digits_value (default "0" (match_digits line)).

(** The body of the loop over the lines of [vm_stat]. *)
Definition count_pages (line : string) (p : PageCounts) : PageCounts :=
  if includes "Pages free:" line then
    mkPages (line_number line) (inactivePages p) (purgeablePages p) (speculativePages p)
  else if includes "Pages inactive:" line then
    mkPages (freePages p) (line_number line) (purgeablePages p) (speculativePages p)
  else if includes "Pages purgeable:" line then
    mkPages (freePages p) (inactivePages p) (line_number line) (speculativePages p)
  else if includes "Pages speculative:" line then
    mkPages (freePages p) (inactivePages p) (purgeablePages p) (line_number line)
  else p.

Fixpoint for_pages (lines : list string) (p : PageCounts) : PageCounts :=
  match lines with
  | [] => p
  | line :: rest => for_pages rest (count_pages line p)
  end.

(** The loop over the lines of [/proc/meminfo], which stops at the first line
    that starts with [MemAvailable:]. *)
Fixpoint for_meminfo (lines : list string) (memAvailable : Z) : Z :=
  match lines with
  | [] => memAvailable
  | line :: rest =>
      if startsWith "MemAvailable:" line then line_number line * 1024
      else for_meminfo rest memAvailable
  end.

(** The object all three strategies return, from the total and what counts
    as free. *)
Definition memory_info (totalMemory freeMemory : Z) : MemoryInfo.t :=
  let usedMemory := totalMemory - freeMemory in
  {| MemoryInfo.total := totalMemory;
     MemoryInfo.free := freeMemory;
     MemoryInfo.used := usedMemory;
     MemoryInfo.percent := percent_of usedMemory totalMemory |}.

(** What the macOS branch computes from the output of [vm_stat]:
    [availableMemory], the four page counts times the page size. The capture
    of the page size is a run of digits, and [parseInt] of it is the integer
    it spells (lemma [parseInt_page_size]). *)
Definition vm_stat_available (stdout : string) : Z :=
  let lines := split newline stdout in
  let pageSizeMatch := match_page_size (lines !!! 0%nat) in
  let pageSize :=
    match pageSizeMatch with
    | Some d => digits_value d
    | None => 16384
    end in
  let p := for_pages lines (mkPages 0 0 0 0) in
  (freePages p + inactivePages p + purgeablePages p + speculativePages p) * pageSize.

(** The [try] block of the macOS branch: it returns from the function, or
    throws where [execAsync] rejects. *)
Definition vm_stat_accounting (h : Host) (totalMemory : Z)
    : Outcome (option MemoryInfo.t) :=
  await stdout ← exec h "vm_stat";
  let availableMemory := vm_stat_available stdout in
  Returned (Some (memory_info totalMemory availableMemory)).

(** What the Linux branch reads in [/proc/meminfo]: [memAvailable]. *)
Definition meminfo_available (stdout : string) : Z :=
  let lines := split newline stdout in
  for_meminfo lines 0.

(** The [try] block of the Linux branch: it returns from the function when
    [memAvailable > 0], and is left without a result otherwise. *)
Definition meminfo_accounting (h : Host) (totalMemory : Z)
    : Outcome (option MemoryInfo.t) :=
  await stdout ← exec h "cat /proc/meminfo";
  let memAvailable := meminfo_available stdout in
  if (0 <? memAvailable)%Z then Returned (Some (memory_info totalMemory memAvailable))
  else Returned None.

(** [getMemoryInfo()]: the branch of the platform inside its [try], whose
    [catch] is empty, and then the lines after the [if], which are reached
    when no branch has returned. *)
Definition getMemoryInfo (h : Host) : Outcome MemoryInfo.t :=
  let totalMemory := totalmem h in
  let os := platform h in
  await returned ←
    (if String.eqb os "darwin" then
       try_catch (vm_stat_accounting h totalMemory) (λ _, Returned None)
     else if String.eqb os "linux" then
       try_catch (meminfo_accounting h totalMemory) (λ _, Returned None)
     else Returned None);
  match returned with
  | Some info => Returned info
  | None =>
      let freeMemory := freemem h in
      Returned (memory_info totalMemory freeMemory)
  end.

(** The command of the platform's memory query is unavailable, or the
    platform has no query: the command of the macOS or of the Linux branch is
    rejected, or the platform is neither. This is one of the two ways in
    which a query fails; the other, a command that succeeds and prints text
    in which the branch finds none of the lines it reads, is
    [memory_output_unexpected]. *)
Definition memory_query_unavailable (h : Host) : Prop :=
  (platform h = "darwin" ∧ ∃ e, exec h "vm_stat" = Thrown e)
  ∨ (platform h = "linux" ∧ ∃ e, exec h "cat /proc/meminfo" = Thrown e)
  ∨ (platform h ≠ "darwin" ∧ platform h ≠ "linux").

(** A line of [vm_stat] that the loop of the macOS branch reads. *)
Definition page_line (line : string) : bool :=
  includes "Pages free:" line || includes "Pages inactive:" line
  || includes "Pages purgeable:" line || includes "Pages speculative:" line.

(** The command of the platform's memory query succeeds, and its output is
    not in the format the branch expects: on macOS no line is one that the
    loop reads, on Linux no first line [MemAvailable:] gives a positive
    number. *)
Definition memory_output_unexpected (h : Host) : Prop :=
  (platform h = "darwin"
   ∧ ∃ stdout, exec h "vm_stat" = Returned stdout
       ∧ Forall (λ line, page_line line = false) (split newline stdout))
  ∨ (platform h = "linux"
     ∧ ∃ stdout, exec h "cat /proc/meminfo" = Returned stdout
         ∧ meminfo_available stdout ≤ 0).

(** The memory query fails, or the platform matches no strategy. *)
Definition memory_query_fails (h : Host) : Prop :=
  memory_query_unavailable h ∨ memory_output_unexpected h.

(** ** The aggregate *)

Record SystemMetrics : Type :=
  { sm_hostname : string;
    sm_platform : string;
    sm_arch : string;
    sm_uptime : float;
    loadAvg : list float;
    cpuCount : nat;
    cpuModel : string;
    cpuUsage : list CpuUsage.t;
    totalMem : Z;
    freeMem : Z;
    usedMem : Z;
    memPercent : float;
    processes : list ProcessInfo.t;
    processCount : nat;
    timestamp : Z }.

Section Aggregate.
Context `{Runtime}.

(** [cpuInfo[0]?.model || "Unknown"]. *)
Definition model_or_unknown (cpuInfo : list CpuInfo) : string :=
  match cpuInfo with
  | cpu :: _ => if String.eqb (model cpu) "" then "Unknown" else model cpu
  | [] => "Unknown"
  end.

(** [getSystemMetrics()], from the host and the cache: the aggregate and
    the cache that [getCpuUsage] leaves. *)
Definition getSystemMetrics (h : Host) (prevCpuTimes : Cache)
    : Outcome (SystemMetrics * Cache) :=
  let cpuInfo := cpus h in
  await memInfo ← getMemoryInfo h;
  await processes ← getProcesses h;
  let sampled := getCpuUsage (cpus_again h) prevCpuTimes in
  Returned
    ({| sm_hostname := hostname h;
        sm_platform := platform h;
        sm_arch := arch h;
        sm_uptime := uptime h;
        loadAvg := loadavg h;
        cpuCount := length cpuInfo;
        cpuModel := model_or_unknown cpuInfo;
        cpuUsage := sampled.1;
        totalMem := MemoryInfo.total memInfo;
        freeMem := MemoryInfo.free memInfo;
        usedMem := MemoryInfo.used memInfo;
        memPercent := MemoryInfo.percent memInfo;
        processes := processes;
        processCount := length processes;
        timestamp := Date_now h |},
     sampled.2).
End Aggregate.

(** ** The words of the claims *)

(** [s] cut at every white-space character. *)
Fixpoint pieces (s : string) : list string :=
  match s with
  | EmptyString => [EmptyString]
  | String c s' =>
      if is_space c then EmptyString :: pieces s'
      else
        match pieces s' with
        | piece :: rest => String c piece :: rest
        | [] => [String c EmptyString]
        end
  end.

Definition nonempty (s : string) : bool :=
  match s with
  | EmptyString => false
  | String _ _ => true
  end.

(** The white-space tokens of a line: its maximal runs of characters that
    are not white space, that is the pieces that are not empty. *)
Definition tokens (line : string) : list string := List.filter nonempty (pieces line).

(** A line of white space only. *)
Fixpoint blank (s : string) : bool :=
  match s with
  | EmptyString => true
  | String c s' => is_space c && blank s'
  end.

(** The lines from the first one that is not blank. *)
Fixpoint skip_blank (lines : list string) : list string :=
  match lines with
  | [] => []
  | line :: rest => if blank line then skip_blank rest else lines
  end.

(** The lines of an output after its header, the first line that is not
    blank. *)
Definition rows_after_header (stdout : string) : list string :=
  tail (skip_blank (split newline stdout)).

(** A row with at least 11 tokens. *)
Definition well_formed (line : string) : bool := (11 <=? length (tokens line))%nat.

Section Entries.
Context `{Runtime}.

(** The entries of the rows that are well formed, in their order, each read
    off the tokens of its row. *)
Definition entries (rows : list string) : list ProcessInfo.t :=
  (λ row, process_of (tokens row)) <$> List.filter well_formed rows.

End Entries.

(** ** The pipe of the command line *)

(** What [| head -n] lets through of its input: the first [n] lines, each
    with the newline that ends it. *)
Fixpoint head_lines (n : nat) (s : string) : string :=
  match n, s with
  | O, _ => EmptyString
  | _, EmptyString => EmptyString
  | S n', String c s' =>
      if Ascii.eqb c newline then String c (head_lines n' s')
      else String c (head_lines n s')
  end.

(** ** Readings and hosts of the examples *)

(** Two consecutive readings of one core. *)
Definition first_reading : CpuInfo := mkCpu "cpu" 2400 (mkTimes 100 0 50 850 0).
Definition second_reading : CpuInfo := mkCpu "cpu" 2400 (mkTimes 120 0 60 900 0).

(** A core whose counters are all zero, which [os.cpus()] reports where the
    host does not let the counters be read. *)
Definition zero_reading : CpuInfo := mkCpu "cpu" 0 (mkTimes 0 0 0 0 0).

(** A runtime for the examples. Its logarithm is the binary logarithm
    rounded down and its power is exact on integers, which gives the
    quotient of logarithms and the power of 1024 in [formatBytes] their exact
    values; its conversions read and write decimals with a sign, digits, and
    digits after a point. *)
Module ExampleRuntime.

Definition digits_of (n : Z) : string :=
  NilZero.string_of_uint (N.to_uint (Z.to_N n)).

Definition log (x : float) : float :=
  match Prim2SF x with
  | S754_finite false m e => Z2Num (Z.log2 (Z.pos m) + e)
  | S754_infinity false => infinity
  | S754_zero _ => neg_infinity
  | _ => nan
  end.

(** The integer a double holds, if it holds one. *)
Definition to_integer (x : float) : option Z :=
  match Prim2SF x with
  | S754_zero _ => Some 0
  | S754_finite s m e =>
      let v := if s then Z.neg m else Z.pos m in
      if 0 <=? e then Some (v * 2 ^ e)
      else if v mod 2 ^ (- e) =? 0 then Some (v / 2 ^ (- e))
      else None
  | _ => None
  end.

Definition pow (b x : float) : float :=
  match to_integer b, to_integer x with
  | Some b, Some x => if 0 <=? x then Z2Num (b ^ x) else nan
  | _, _ => nan
  end.

(** The decimal with [d] digits after the point that is closest to [x], the
    larger of two that are as close. *)
Definition fixed (x : float) (d : nat) : string :=
  match Prim2SF x with
  | S754_nan => "NaN"
  | S754_infinity s => if s then "-Infinity" else "Infinity"
  | S754_zero _ | S754_finite _ _ _ =>
      let '(s, m, e) :=
        match Prim2SF x with
        | S754_finite s m e => (s, Z.pos m, e)
        | _ => (false, 0, 0)
        end in
      let scale := 10 ^ Z.of_nat d in
      let n :=
        if 0 <=? e then m * scale * 2 ^ e
        else (2 * m * scale + 2 ^ (- e)) / 2 ^ (1 - e) in
      let frac := digits_of (n mod scale) in
      let pad := String.concat "" (replicate (d - String.length frac) "0") in
      (if s then "-" else "") ++ digits_of (n / scale) ++
      (if (d =? 0)%nat then "" else "." ++ pad ++ frac)
  end.

Definition parse (s : string) : float :=
  let '(negative, s) :=
    match s with
    | String "-" s' => (true, s')
    | _ => (false, s)
    end in
  let frac :=
    match dropDigits s with
    | String "." r => takeDigits r
    | _ => ""
    end in
  match takeDigits s ++ frac with
  | "" => nan
  | ds =>
      let v :=
        PrimFloat.div (Z2Num (digits_value ds))
                      (Z2Num (10 ^ Z.of_nat (String.length frac))) in
      if negative then PrimFloat.opp v else v
  end.

(** The shortest decimal that reads back as [x]. *)
Fixpoint shortest (x : float) (d fuel : nat) : string :=
  match fuel with
  | O => fixed x d
  | S fuel =>
      if PrimFloat.eqb (parse (fixed x d)) x then fixed x d
      else shortest x (S d) fuel
  end.

Definition to_string (x : float) : string :=
  match Prim2SF x with
  | S754_nan => "NaN"
  | S754_infinity s => if s then "-Infinity" else "Infinity"
  | S754_zero _ => "0"
  | S754_finite _ _ _ => shortest x 0 20
  end.

#[export] Instance runtime : Runtime :=
  {| Math_log := log;
     Math_pow := pow;
     toFixed := fixed;
     parseFloat := parse;
     Number_toString := to_string |}.

End ExampleRuntime.

(** A host with the given platform and answers to the commands. *)
Definition host_of (os : string) (answers : string → Outcome string) : Host :=
  {| hostname := "box"; platform := os; arch := "x64"; uptime := 3600;
     loadavg := [0.5%float; 0.25%float; 0.125%float];
     cpus := [first_reading]; cpus_again := [second_reading];
     totalmem := 16 * 1024 ^ 3; freemem := 4 * 1024 ^ 3;
     exec := answers; Date_now := 1700000000000 |}.

(** A host on which every command fails. *)
Definition failing_host (os : string) : Host :=
  host_of os (λ _, Thrown "Command failed").

Definition ps_output : string :=
"USER       PID %CPU %MEM    VSZ   RSS TTY      STAT START   TIME COMMAND
root         1  0.0  0.1 168000 11264 ?        Ss   Oct01   0:03 /sbin/init   splash
www       2211  1.5  2.0   2048   512 pts/0    R+   10:00   0:00 node server.js
truncated  row
".

Definition meminfo_output : string :=
"MemTotal:       16777216 kB
MemFree:         1048576 kB
MemAvailable:    8388608 kB
".

Definition vm_stat_output : string :=
"Mach Virtual Memory Statistics: (page size of 16384 bytes)
Pages free:                               10000.
Pages active:                            200000.
Pages inactive:                          100000.
Pages speculative:                         5000.
Pages purgeable:                           1000.
".

Definition linux_host : Host :=
  host_of "linux" (λ command,
    if String.eqb command "ps aux --sort=-%cpu | head -50" then Returned ps_output
    else if String.eqb command "cat /proc/meminfo" then Returned meminfo_output
    else Thrown "Command failed").

Definition darwin_host : Host :=
  host_of "darwin" (λ command,
    if String.eqb command "ps aux -r | head -50" then Returned ps_output
    else if String.eqb command "vm_stat" then Returned vm_stat_output
    else Thrown "Command failed").

(** An output of [vm_stat] in another format: the counts are there, under
    labels that the loop does not look for. *)
Definition vm_stat_other_labels : string :=
"Mach Virtual Memory Statistics: (page size of 16384 bytes)
Free pages:                               10000.
Active pages:                            200000.
Inactive pages:                          100000.
".

(** A macOS host whose [vm_stat] succeeds and prints that output, and a
    Linux host whose [/proc/meminfo] reads the same. *)
Definition darwin_other_labels : Host :=
  host_of "darwin" (λ command,
    if String.eqb command "ps aux -r | head -50" then Returned ps_output
    else if String.eqb command "vm_stat" then Returned vm_stat_other_labels
    else Thrown "Command failed").

Definition linux_other_labels : Host :=
  host_of "linux" (λ command,
    if String.eqb command "ps aux --sort=-%cpu | head -50" then Returned ps_output
    else if String.eqb command "cat /proc/meminfo" then Returned vm_stat_other_labels
    else Thrown "Command failed").

(** What [ps] prints for fifty processes: the header and fifty rows. *)
Definition header_line : string :=
  "USER       PID %CPU %MEM    VSZ   RSS TTY      STAT START   TIME COMMAND".

Definition sample_row : string :=
  "www       2211  1.5  2.0   2048   512 pts/0    R+   10:00   0:00 node server.js".

Definition unlines (lines : list string) : string :=
  foldr (λ line rest, line ++ String newline rest) "" lines.

Definition fifty_rows : string := unlines (header_line :: replicate 50 sample_row).

(** A host whose shell runs the pipe of the command line: [exec] resolves
    with the first 50 lines of what [ps] prints. *)
Definition piped_host (os : string) (raw : string) : Host :=
  host_of os (λ command,
    if String.eqb command (ps_command os) then Returned (head_lines 50 raw)
    else Thrown "Command failed").

(** * The rest of the server and the client

    The request handler of [Bun.serve], and the pure parts of the React
    client: [formatUptime], the history of the graphs, the sort column and
    the filter of the process table, the hook [useSystemMetrics] with the
    screens of [App], [renderBar] and the filter of the environment panel.

    Conventions of this part.
    - A request is its method and the path of its URL; a response is its
      body, status and headers. [JSON.stringify] of the metrics is a
      parameter ([Server.Json]).
    - The state of a component is a value, and a setter call is a function
      from the state before to the state after; the calls of [fetchMetrics]
      are taken in the order in which they end.
    - The uptime that [formatUptime] formats is a whole number of seconds. *)

(** ** More words for the properties *)

(** A string with a white-space character in it. *)
Fixpoint has_space (s : string) : bool :=
  match s with
  | EmptyString => false
  | String c s' => is_space c || has_space s'
  end.

(** A word: a string that is not empty and has no white space in it. *)
Definition is_word (s : string) : bool := nonempty s && negb (has_space s).

(** A string that starts with a digit. *)
Definition starts_with_digit (s : string) : bool :=
  match s with
  | String c _ => is_digit c
  | EmptyString => false
  end.

(** A string with a digit in it. *)
Fixpoint has_digit (s : string) : bool :=
  match s with
  | EmptyString => false
  | String c s' => is_digit c || has_digit s'
  end.

(** A string of digits only. *)
Fixpoint all_digits (s : string) : bool :=
  match s with
  | EmptyString => true
  | String c s' => is_digit c && all_digits s'
  end.

(** ** The request handler *)

Module Server.

(** What the handler reads of a request: [req.method] and the [pathname] of
    [new URL(req.url)]. *)
Record Request : Type := mkRequest
  { method : string; pathname : string }.

(** What the handler passes to [new Response]: the body ([null] is [None]),
    the status (200 where the code gives none) and the headers. *)
Record Response : Type := mkResponse
  { body : option string; status : Z; headers : list (string * string) }.

Definition corsHeaders : list (string * string) :=
  [ ("Access-Control-Allow-Origin", "*");
    ("Access-Control-Allow-Methods", "GET, OPTIONS");
    ("Access-Control-Allow-Headers", "Content-Type") ].

(** [JSON.stringify(metrics)], a built-in of the runtime. *)
Class Json : Type := { JSON_stringify : SystemMetrics → string }.

Definition quote : string := String "034"%char EmptyString.

(** [JSON.stringify({ status: "ok" })]: the text [{"status":"ok"}]. *)
Definition health_body : string :=
  "{" ++ quote ++ "status" ++ quote ++ ":" ++ quote ++ "ok" ++ quote ++ "}".

Section Fetch.
Context `{Runtime} `{Json}.

(** The [fetch] handler of [Bun.serve], from the request, the host and the
    cache: the response and the cache left behind. *)
Definition fetch (req : Request) (h : Host) (prevCpuTimes : Cache)
    : Outcome (Response * Cache) :=
  if String.eqb (method req) "OPTIONS" then
    Returned (mkResponse None 200 corsHeaders, prevCpuTimes)
  else if String.eqb (pathname req) "/api/metrics" then
    await metrics ← getSystemMetrics h prevCpuTimes;
    Returned
      (mkResponse (Some (JSON_stringify metrics.1)) 200
         (("Content-Type", "application/json") :: corsHeaders),
       metrics.2)
  else if String.eqb (pathname req) "/api/health" then
    Returned
      (mkResponse (Some health_body) 200
         (("Content-Type", "application/json") :: corsHeaders),
       prevCpuTimes)
  else
    Returned (mkResponse (Some "Not Found") 404 corsHeaders, prevCpuTimes).

End Fetch.

End Server.

(** ** The client *)

(** The decimal notation of an integer, as a template literal writes it. *)
Definition decimal (z : Z) : string :=
  if z <? 0 then "-" ++ NilZero.string_of_uint (N.to_uint (Z.to_N (- z)))
  else NilZero.string_of_uint (N.to_uint (Z.to_N z)).

(** *** [Header]: [formatUptime] *)

(** [formatUptime(seconds)] for a whole number of seconds: [Math.floor] of a
    quotient is the quotient rounded down, and [%] is the remainder with the
    sign of the dividend. *)
Definition formatUptime (seconds : Z) : string :=
  let days := seconds / 86400 in
  let hours := Z.rem seconds 86400 / 3600 in
  let minutes := Z.rem seconds 3600 / 60 in
  let parts : list string := [] in
  let parts := if 0 <? days then (parts ++ [(decimal days ++ "d")%string])%list else parts in
  let parts := if 0 <? hours then (parts ++ [(decimal hours ++ "h")%string])%list else parts in
  let parts := (parts ++ [(decimal minutes ++ "m")%string])%list in
  join " " parts.

(** *** [CpuGraph] and [MemoryGraph]: the history *)

Definition HISTORY_LENGTH : nat := 60.

(** The function passed to [setHistory]: the new point is appended, and of
    more than [HISTORY_LENGTH] points the last [HISTORY_LENGTH] are kept
    ([updated.slice(-HISTORY_LENGTH)]). *)
Definition update_history {A : Type} (prev : list A) (newPoint : A) : list A :=
  let updated := (prev ++ [newPoint])%list in
  if (HISTORY_LENGTH <? length updated)%nat
  then drop (length updated - HISTORY_LENGTH) updated
  else updated.

(** The history after the points of a run of the effect, oldest first. *)
Definition history_of {A : Type} (points : list A) : list A :=
  foldl update_history [] points.

(** *** [ProcessTable]: the sort column *)

Module ProcessTable.

Inductive SortField : Type := pid | user | cpu | mem | command.
Inductive SortDirection : Type := asc | desc.

#[export] Instance SortField_eq_dec : EqDecision SortField.
Proof. solve_decision. Defined.

Record SortState : Type := mkSort
  { sortField : SortField; sortDirection : SortDirection }.

(** The state of a table that was just mounted. *)
Definition initial : SortState := mkSort cpu desc.

(** [handleSort(field)]: both setters of a branch take effect together. *)
Definition handleSort (field : SortField) (st : SortState) : SortState :=
  if decide (sortField st = field) then
    mkSort (sortField st)
      match sortDirection st with
      | asc => desc
      | desc => asc
      end
  else mkSort field desc.

(** A run of clicks on column headers, first click first. *)
Definition clicks (fields : list SortField) (st : SortState) : SortState :=
  foldl (λ st field, handleSort field st) st fields.

End ProcessTable.

(** *** [useSystemMetrics] and the screens of [App] *)

Module MetricsHook.

(** What a [catch] receives: an [Error] with its message, or another value. *)
Inductive Raised : Type :=
  | ErrorObject (message : string)
  | OtherValue.

(** [err instanceof Error ? err.message : 'Failed to fetch metrics']. *)
Definition message_of (err : Raised) : string :=
  match err with
  | ErrorObject message => message
  | OtherValue => "Failed to fetch metrics"
  end.

Section Hook.
(** The values that [response.json()] can give, and which of them are
    truthy (an object is, [null] is not). *)
Context {Data : Type} (truthy : Data → bool).

(** How one call of [fetchMetrics] ends. *)
Inductive FetchEnd : Type :=
  | FetchRejected (err : Raised)
  | NotOk (status : Z)
  | JsonRejected (err : Raised)
  | Loaded (data : Data).

(** The three states of the hook; [null] is [None]. *)
Record HookState : Type := mkHook
  { metrics : option Data; error : option string; loading : bool }.

Definition initial : HookState := mkHook None None true.

(** The state after a call of [fetchMetrics] that ends in [ending]: the
    setters of the [try] or of the [catch], then the one of the [finally]. *)
Definition fetchMetrics (st : HookState) (ending : FetchEnd) : HookState :=
  match ending with
  | FetchRejected err => mkHook (metrics st) (Some (message_of err)) false
  | NotOk status =>
      mkHook (metrics st)
        (Some (message_of (ErrorObject ("HTTP error: " ++ decimal status)))) false
  | JsonRejected err => mkHook (metrics st) (Some (message_of err)) false
  | Loaded data => mkHook (Some data) None false
  end.

(** The state after the calls that have ended, first one first. *)
Definition after (endings : list FetchEnd) (st : HookState) : HookState :=
  foldl fetchMetrics st endings.

(** [!metrics]. *)
Definition no_metrics (st : HookState) : bool :=
  match metrics st with
  | Some data => negb (truthy data)
  | None => true
  end.

(** [error] as a condition: a string that is not empty. *)
Definition has_error (st : HookState) : bool :=
  match error st with
  | Some message => nonempty message
  | None => false
  end.

(** What [App] renders. *)
Inductive Screen : Type :=
  | LoadingScreen
  | ErrorScreen (message : string)
  | Blank
  | Dashboard (data : Data) (reconnecting : bool).

Definition App (st : HookState) : Screen :=
  if loading st && no_metrics st then LoadingScreen
  else if has_error st && no_metrics st then ErrorScreen (default "" (error st))
  else if no_metrics st then Blank
  else
    match metrics st with
    | Some data => Dashboard data (has_error st)
    | None => Blank
    end.

(** A call that, if it loaded data, loaded a truthy value. *)
Definition loads_truthy (ending : FetchEnd) : Prop :=
  match ending with
  | Loaded data => truthy data = true
  | _ => True
  end.

End Hook.

Arguments FetchEnd Data : clear implicits.
Arguments HookState Data : clear implicits.
Arguments Screen Data : clear implicits.

End MetricsHook.

(** *** [CpuBar] and [MemoryBar]: [renderBar] *)

Module Bars.

(** The count of [String.prototype.repeat] as an integer: [NaN] and the
    zeros count 0, a fraction is cut off; [None] stands for the counts that
    make [repeat] throw a [RangeError], the negative ones and the
    infinities. *)
Definition repeat_count (count : float) : option Z :=
  match Prim2SF count with
  | S754_nan | S754_zero _ => Some 0
  | S754_infinity _ => None
  | S754_finite s m e =>
      let v := if s then Z.neg m else Z.pos m in
      let n := if 0 <=? e then v * 2 ^ e else Z.quot v (2 ^ (- e)) in
      if n <? 0 then None else Some n
  end.

Fixpoint copies (n : nat) (s : string) : string :=
  match n with
  | O => EmptyString
  | S n' => s ++ copies n' s
  end.

(** [s.repeat(count)]. *)
Definition String_repeat (s : string) (count : float) : Outcome string :=
  match repeat_count count with
  | Some n => Returned (copies (Z.to_nat n) s)
  | None => Thrown "RangeError"
  end.

(** [renderBar(usage, maxBlocks)]. Where [filled] is too large for
    [repeat] to build its string, [maxBlocks - filled] is negative and the
    call throws a [RangeError] in any case. *)
Definition renderBar (usage maxBlocks : float) : Outcome string :=
  let filled :=
    Math_round (PrimFloat.mul (PrimFloat.div usage 100) maxBlocks) in
  await blocks ← String_repeat "|" filled;
  await empty ← String_repeat " " (PrimFloat.sub maxBlocks filled);
  Returned (blocks ++ empty).

(** [renderBar(cpu.usage)] in [CpuBar], where [maxBlocks] is 20, and
    [renderBar(percent)] in [MemoryBar], where it is 30. *)
Definition CpuBar_renderBar (usage : float) : Outcome string := renderBar usage 20.
Definition MemoryBar_renderBar (usage : float) : Outcome string := renderBar usage 30.

(** A bar of [filled] strokes in [width] places. *)
Definition bar (filled width : nat) : string :=
  copies filled "|" ++ copies (width - filled) " ".

End Bars.

(** Two outcomes that are the same, as a test. *)
Definition same_outcome (a b : Outcome string) : bool :=
  match a, b with
  | Returned x, Returned y => String.eqb x y
  | Thrown x, Thrown y => String.eqb x y
  | _, _ => false
  end.

(** *** The filter of [ProcessTable] and [EnvironmentPanel] *)

(** [toLowerCase] of a code unit below 256: the letters [A] to [Z] and the
    capital letters from U+00C0 to U+00DE, the sign U+00D7 apart, are moved
    up by 32. *)
Definition lower_char (c : ascii) : ascii :=
  let n := nat_of_ascii c in
  if ((65 <=? n) && (n <=? 90)
      || (192 <=? n) && (n <=? 222) && negb (n =? 215))%nat
  then ascii_of_nat (n + 32) else c.

(** [s.toLowerCase()]. *)
Fixpoint toLowerCase (s : string) : string :=
  match s with
  | EmptyString => EmptyString
  | String c s' => String (lower_char c) (toLowerCase s')
  end.

Section TableFilter.
Context `{Runtime}.

(** The filter of [filteredAndSortedProcesses], before the sort. *)
Definition filter_processes (processes : list ProcessInfo.t) (filter : string)
    : list ProcessInfo.t :=
  if nonempty filter then
    let lowerFilter := toLowerCase filter in
    List.filter
      (λ p,
         includes lowerFilter (toLowerCase (ProcessInfo.command p))
         || includes lowerFilter (toLowerCase (ProcessInfo.user p))
         || includes filter (Number_toString (ProcessInfo.pid p)))
      processes
  else processes.

End TableFilter.

Module EnvironmentPanel.

Record EnvVariable : Type := mkVar { name : string; value : string }.

(** [filteredVars]. *)
Definition filteredVars (envVars : list EnvVariable) (filter : string)
    : list EnvVariable :=
  if negb (nonempty filter) then envVars
  else
    let lowerFilter := toLowerCase filter in
    List.filter
      (λ v,
         includes lowerFilter (toLowerCase (name v))
         || includes lowerFilter (toLowerCase (value v)))
      envVars.

(** [displayVars]. *)
Definition displayVars (expanded : bool) (filteredVars : list EnvVariable)
    : list EnvVariable :=
  if expanded then filteredVars else take 10 filteredVars.

End EnvironmentPanel.

(** * Properties *)

Local Open Scope list_scope.
Local Open Scope Z_scope.

(** ** The model on small inputs *)

(** [Math.round] sends a tie towards +infinity, and a quotient is rounded as
    a double before it is multiplied: [29 / 200 * 100] is
    [14.499999999999998], which rounds to 14. *)
Example Math_round_ties :
  Math_round 0.5 = 1%float ∧ Math_round 2.5 = 3%float
  ∧ Math_round 37.5 = 38%float ∧ Math_round (-0.5) = neg_zero
  ∧ Math_round (-1.5) = (-1)%float ∧ Math_round nan = nan
  ∧ percent_of 29 200 = 14%float ∧ percent_of 1 8 = 13%float.
Proof. by vm_compute. Qed.

(** A first sample is computed on the counters since boot. *)
Example getCpuUsage_first_reading :
  (getCpuUsage [first_reading] ∅).1 =
    [ {| CpuUsage.core := 0; CpuUsage.usage := 15; CpuUsage.user := 10;
         CpuUsage.system := 5; CpuUsage.idle := 85 |} ].
Proof. by vm_compute. Qed.

Example split_spaces_pieces :
  split_spaces " a  b " = [""; "a"; "b"; ""]
  ∧ split_spaces (trim " a  b ") = ["a"; "b"]
  ∧ split_spaces (trim "   ") = [""]
  ∧ tokens " a  b " = ["a"; "b"]
  ∧ tokens "   " = [].
Proof. by vm_compute. Qed.

Example head_lines_two :
  head_lines 2 (unlines ["a"; "b"; "c"]) = unlines ["a"; "b"]
  ∧ head_lines 2 "a" = "a".
Proof. by vm_compute. Qed.

Example parseInt_prefix :
  parseInt "  42abc" = 42%float ∧ parseInt "-7" = (-7)%float
  ∧ parseInt "abc" = nan ∧ parseInt "" = nan.
Proof. by vm_compute. Qed.

Example formatBytes_units :
  @formatBytes ExampleRuntime.runtime 0 = VString "0 B"
  ∧ @formatBytes ExampleRuntime.runtime 1023 = VString "1023B"
  ∧ @formatBytes ExampleRuntime.runtime 1024 = VString "1K"
  ∧ @formatBytes ExampleRuntime.runtime 172032000 = VString "164.1M"
  ∧ @formatBytes ExampleRuntime.runtime (Z2Num (1024 ^ 5)) = VNumber nan
  ∧ @formatBytes ExampleRuntime.runtime nan = VNumber nan.
Proof. by vm_compute. Qed.

(** An output that is a header only gives no entry. *)
Example getProcesses_header_only :
  @getProcesses ExampleRuntime.runtime
    (host_of "linux" (λ _, Returned (unlines [header_line]))) = Returned [].
Proof. by vm_compute. Qed.

(** ** The sampler's loop *)

Section Sampler.
Implicit Types (cpuInfo : list CpuInfo) (st : SamplerState) (c : Cache).

(** The cache after the loop: the indices visited hold the current
    readings, every other index is as before. *)
Lemma forEach_from_cache cpuInfo : ∀ index st i,
  (forEach_from index cpuInfo st).1 !! i =
    if decide (index ≤ i < index + length cpuInfo)%nat
    then times <$> cpuInfo !! (i - index)%nat
    else st.1 !! i.
Proof.
  induction cpuInfo as [|cpu rest IH]; intros index st i; simpl.
  - case_decide; [lia | done].
  - rewrite IH. simpl.
    destruct (decide (i = index)) as [->|Hne].
    + rewrite Nat.sub_diag. simpl.
      rewrite decide_False by lia. rewrite decide_True by lia.
      by rewrite lookup_insert_eq.
    + rewrite lookup_insert_ne by done.
      destruct (decide (index < i)%nat) as [Hlt|Hge].
      * replace (i - index)%nat with (S (i - S index)) by lia. simpl.
        repeat case_decide; try lia; done.
      * repeat case_decide; try lia; done.
Qed.

(** The entries pushed by the loop: the one of core [index + k] is computed
    from the cache entry the loop started with, since no earlier iteration
    writes that index. *)
Lemma forEach_from_usage cpuInfo : ∀ index st,
  (forEach_from index cpuInfo st).2 =
    st.2 ++ imap (λ k cpu, core_usage (st.1 !! (index + k)%nat) (index + k) cpu)
                 cpuInfo.
Proof.
  induction cpuInfo as [|cpu rest IH]; intros index st; simpl.
  - by rewrite app_nil_r.
  - rewrite IH. simpl. rewrite <- app_assoc. simpl.
    rewrite Nat.add_0_r. do 2 f_equal.
    apply imap_ext. intros k x _. simpl.
    rewrite lookup_insert_ne by lia.
    by rewrite <- !Nat.add_succ_r.
Qed.

Lemma getCpuUsage_usage cpuInfo c :
  (getCpuUsage cpuInfo c).1 =
    imap (λ i cpu, core_usage (c !! i) i cpu) cpuInfo.
Proof. unfold getCpuUsage. simpl. by rewrite forEach_from_usage. Qed.

Lemma getCpuUsage_lookup cpuInfo c i cpu :
  cpuInfo !! i = Some cpu →
  (getCpuUsage cpuInfo c).1 !! i = Some (core_usage (c !! i) i cpu).
Proof.
  intros Hi. rewrite getCpuUsage_usage, list_lookup_imap, Hi. done.
Qed.

Lemma getCpuUsage_cache cpuInfo c i :
  (getCpuUsage cpuInfo c).2 !! i =
    if decide (i < length cpuInfo)%nat then times <$> cpuInfo !! i else c !! i.
Proof.
  unfold getCpuUsage. simpl. rewrite forEach_from_cache. simpl.
  rewrite Nat.sub_0_r. repeat case_decide; try lia; done.
Qed.

End Sampler.

(** ** CPU sampling *)

Lemma Some_float_neq (x y : float) :
  Prim2SF x ≠ Prim2SF y → Some x ≠ Some y.
Proof. intros Hne [= ->]. by apply Hne. Qed.

(** C1, the claim as stated fails on its example: the two readings differ by
    80 in total, not by 130, and the usage emitted is 38, not 62. *)
Lemma getCpuUsage_example_not_62 :
  total_of (times second_reading) - total_of (times first_reading) ≠ 130
  ∧ CpuUsage.usage <$>
      (getCpuUsage [second_reading] (getCpuUsage [first_reading] ∅).2).1 !! 0%nat
    ≠ Some 62%float.
Proof.
  split; [vm_compute; discriminate |].
  apply (Some_float_neq 38 62). vm_compute. discriminate.
Qed.

(** C1, amended: for a core with a cached previous reading and
    [totalDiff > 0], the entry emitted holds the four rounded ratios of the
    differences to [totalDiff]; in particular the readings
    [{user:100,nice:0,sys:50,idle:850,irq:0}] then
    [{user:120,nice:0,sys:60,idle:900,irq:0}] give [totalDiff = 80],
    [idleDiff = 50] and [usage = round((80-50)/80*100) = 38]. *)
Theorem getCpuUsage_delta :
  (∀ (cpuInfo : list CpuInfo) (c : Cache) (i : nat) (cpu : CpuInfo) (prev : CpuTimes),
     cpuInfo !! i = Some cpu →
     c !! i = Some prev →
     let totalDiff := total_of (times cpu) - total_of prev in
     let idleDiff := idle (times cpu) - idle prev in
     let userDiff := user (times cpu) - user prev in
     let sysDiff := sys (times cpu) - sys prev in
     0 < totalDiff →
     (getCpuUsage cpuInfo c).1 !! i =
       Some {| CpuUsage.core := i;
               CpuUsage.usage :=
                 Math_round (PrimFloat.mul
                   (PrimFloat.div (Z2Num (totalDiff - idleDiff)) (Z2Num totalDiff)) 100);
               CpuUsage.user :=
                 Math_round (PrimFloat.mul
                   (PrimFloat.div (Z2Num userDiff) (Z2Num totalDiff)) 100);
               CpuUsage.system :=
                 Math_round (PrimFloat.mul
                   (PrimFloat.div (Z2Num sysDiff) (Z2Num totalDiff)) 100);
               CpuUsage.idle :=
                 Math_round (PrimFloat.mul
                   (PrimFloat.div (Z2Num idleDiff) (Z2Num totalDiff)) 100) |})
  ∧ total_of (times second_reading) - total_of (times first_reading) = 80
  ∧ idle (times second_reading) - idle (times first_reading) = 50
  ∧ (getCpuUsage [second_reading] (getCpuUsage [first_reading] ∅).2).1 =
      [ {| CpuUsage.core := 0; CpuUsage.usage := 38; CpuUsage.user := 25;
           CpuUsage.system := 13; CpuUsage.idle := 63 |} ].
Proof.
  split; [| by vm_compute].
  intros cpuInfo c i cpu prev Hcpu Hprev totalDiff idleDiff userDiff sysDiff Hpos.
  rewrite (getCpuUsage_lookup _ _ _ _ Hcpu), Hprev.
  unfold core_usage. fold totalDiff idleDiff userDiff sysDiff.
  apply Z.ltb_lt in Hpos. by rewrite Hpos.
Qed.

(** The general statement at the two readings of the example, the second
    sample following the first. *)
Lemma getCpuUsage_delta_witness :
  CpuUsage.usage <$>
    (getCpuUsage [second_reading] (getCpuUsage [first_reading] ∅).2).1 !! 0%nat
  = Some 38%float.
Proof.
  rewrite (proj1 getCpuUsage_delta [second_reading]
             (getCpuUsage [first_reading] ∅).2 0%nat second_reading
             (times first_reading));
    [ by vm_compute | reflexivity | by vm_compute | by vm_compute ].
Defined.

(** The entry of a core with no cached reading holds the ratios of the
    reading's own counters to their total. *)
Lemma getCpuUsage_first_sample (cpuInfo : list CpuInfo) (c : Cache) (i : nat)
    (cpu : CpuInfo) :
  cpuInfo !! i = Some cpu →
  c !! i = None →
  let total := total_of (times cpu) in
  (getCpuUsage cpuInfo c).1 !! i =
    Some {| CpuUsage.core := i;
            CpuUsage.usage :=
              Math_round (PrimFloat.mul
                (PrimFloat.div (Z2Num (total - idle (times cpu))) (Z2Num total)) 100);
            CpuUsage.user :=
              Math_round (PrimFloat.mul
                (PrimFloat.div (Z2Num (user (times cpu))) (Z2Num total)) 100);
            CpuUsage.system :=
              Math_round (PrimFloat.mul
                (PrimFloat.div (Z2Num (sys (times cpu))) (Z2Num total)) 100);
            CpuUsage.idle :=
              Math_round (PrimFloat.mul
                (PrimFloat.div (Z2Num (idle (times cpu))) (Z2Num total)) 100) |}.
Proof.
  intros Hcpu Hprev total.
  by rewrite (getCpuUsage_lookup _ _ _ _ Hcpu), Hprev.
Qed.

(** C3, at the failing input: on the first sample of a core whose counters
    are all zero the total is 0, the quotient is [0/0], and every percentage
    of the entry is [NaN], which is not a number of [[0,100]]; the branch
    with a previous reading guards its division with [totalDiff > 0], this
    one divides unguarded. *)
Theorem getCpuUsage_first_sample_zero :
  (getCpuUsage [zero_reading] ∅).1 =
    [ {| CpuUsage.core := 0; CpuUsage.usage := nan; CpuUsage.user := nan;
         CpuUsage.system := nan; CpuUsage.idle := nan |} ]
  ∧ PrimFloat.leb 0 nan = false
  ∧ PrimFloat.leb nan 100 = false.
Proof. by vm_compute. Qed.

(** C4: for a core with a cached previous reading and [totalDiff <= 0], the
    entry emitted is exactly [{usage:0, user:0, system:0, idle:100}]; so it
    is when a sample is taken on the readings of the sample before. *)
Theorem getCpuUsage_no_progress :
  (∀ (cpuInfo : list CpuInfo) (c : Cache) (i : nat) (cpu : CpuInfo) (prev : CpuTimes),
     cpuInfo !! i = Some cpu →
     c !! i = Some prev →
     total_of (times cpu) - total_of prev ≤ 0 →
     (getCpuUsage cpuInfo c).1 !! i =
       Some {| CpuUsage.core := i; CpuUsage.usage := 0; CpuUsage.user := 0;
               CpuUsage.system := 0; CpuUsage.idle := 100 |})
  ∧ (∀ (cpuInfo : list CpuInfo) (c : Cache) (i : nat) (cpu : CpuInfo),
       cpuInfo !! i = Some cpu →
       (getCpuUsage cpuInfo (getCpuUsage cpuInfo c).2).1 !! i =
         Some {| CpuUsage.core := i; CpuUsage.usage := 0; CpuUsage.user := 0;
                 CpuUsage.system := 0; CpuUsage.idle := 100 |}).
Proof.
  assert (Hle : ∀ (cpuInfo : list CpuInfo) (c : Cache) i cpu prev,
    cpuInfo !! i = Some cpu → c !! i = Some prev →
    total_of (times cpu) - total_of prev ≤ 0 →
    (getCpuUsage cpuInfo c).1 !! i =
      Some {| CpuUsage.core := i; CpuUsage.usage := 0; CpuUsage.user := 0;
              CpuUsage.system := 0; CpuUsage.idle := 100 |}).
  { intros cpuInfo c i cpu prev Hcpu Hprev Hdiff.
    rewrite (getCpuUsage_lookup _ _ _ _ Hcpu), Hprev. unfold core_usage.
    destruct (Z.ltb_spec 0 (total_of (times cpu) - total_of prev)); [lia | done]. }
  split; [exact Hle |].
  intros cpuInfo c i cpu Hcpu.
  apply (Hle _ _ _ _ (times cpu) Hcpu); [| lia].
  rewrite getCpuUsage_cache, decide_True by (by eapply lookup_lt_Some).
  by rewrite Hcpu.
Qed.

(** A core that is sampled twice at the same counters, and one whose
    counters went back. *)
Lemma getCpuUsage_no_progress_witness :
  CpuUsage.usage <$>
    (getCpuUsage [first_reading] (getCpuUsage [first_reading] ∅).2).1 !! 0%nat
    = Some 0%float
  ∧ (getCpuUsage [first_reading] {[ 0%nat := times second_reading ]}).1 !! 0%nat =
      Some {| CpuUsage.core := 0; CpuUsage.usage := 0; CpuUsage.user := 0;
              CpuUsage.system := 0; CpuUsage.idle := 100 |}.
Proof.
  split.
  - by rewrite (proj2 getCpuUsage_no_progress [first_reading] ∅ 0%nat first_reading).
  - apply (proj1 getCpuUsage_no_progress [first_reading] _ 0%nat first_reading
             (times second_reading)); [reflexivity | reflexivity | by vm_compute].
Defined.

(** C9: a call of [getCpuUsage] stores, for every core index of the current
    reading, that core's current counters; it leaves the entry of every
    other index as it was; and no index that had an entry loses it. *)
Theorem getCpuUsage_cache_update (cpuInfo : list CpuInfo) (c : Cache) :
  (∀ i cpu, cpuInfo !! i = Some cpu →
     (getCpuUsage cpuInfo c).2 !! i = Some (times cpu))
  ∧ (∀ i, cpuInfo !! i = None → (getCpuUsage cpuInfo c).2 !! i = c !! i)
  ∧ dom c ⊆ dom (getCpuUsage cpuInfo c).2.
Proof.
  split; [| split].
  - intros i cpu Hcpu.
    rewrite getCpuUsage_cache, decide_True by (by eapply lookup_lt_Some).
    by rewrite Hcpu.
  - intros i Hnone.
    rewrite getCpuUsage_cache, decide_False; [done |].
    apply lookup_ge_None in Hnone. lia.
  - intros i [prev Hprev]%elem_of_dom. apply elem_of_dom.
    rewrite getCpuUsage_cache. case_decide as Hlt; [| by eexists].
    destruct (lookup_lt_is_Some_2 cpuInfo i Hlt) as [cpu ->]. by eexists.
Qed.

(** A cache that holds cores 0 and 3 when one core is read: the entry of
    core 0 is overwritten, the entry of core 3 stays. *)
Lemma getCpuUsage_cache_update_witness :
  (getCpuUsage [second_reading]
     {[ 0%nat := times first_reading; 3%nat := times zero_reading ]}).2 !! 0%nat
    = Some (times second_reading)
  ∧ (getCpuUsage [second_reading]
       {[ 0%nat := times first_reading; 3%nat := times zero_reading ]}).2 !! 3%nat
    = Some (times zero_reading).
Proof.
  split.
  - by apply (proj1 (getCpuUsage_cache_update [second_reading] _)).
  - by rewrite (proj1 (proj2 (getCpuUsage_cache_update [second_reading] _))).
Defined.

(** ** Memory accounting *)

Section Memory.
Implicit Types (h : Host).

Lemma getMemoryInfo_darwin h stdout :
  platform h = "darwin" →
  exec h "vm_stat" = Returned stdout →
  getMemoryInfo h = Returned (memory_info (totalmem h) (vm_stat_available stdout)).
Proof.
  intros Hos Hexec. unfold getMemoryInfo, vm_stat_accounting.
  by rewrite Hos, Hexec.
Qed.

Lemma getMemoryInfo_linux h stdout :
  platform h = "linux" →
  exec h "cat /proc/meminfo" = Returned stdout →
  0 < meminfo_available stdout →
  getMemoryInfo h = Returned (memory_info (totalmem h) (meminfo_available stdout)).
Proof.
  intros Hos Hexec Hpos. unfold getMemoryInfo, meminfo_accounting.
  rewrite Hos, Hexec. simpl.
  apply Z.ltb_lt in Hpos. by rewrite Hpos.
Qed.

(** On Linux the fallback is also taken when no line gives a positive
    [MemAvailable]. *)
Lemma getMemoryInfo_linux_no_available h stdout :
  platform h = "linux" →
  exec h "cat /proc/meminfo" = Returned stdout →
  meminfo_available stdout ≤ 0 →
  getMemoryInfo h = Returned (memory_info (totalmem h) (freemem h)).
Proof.
  intros Hos Hexec Hle. unfold getMemoryInfo, meminfo_accounting.
  rewrite Hos, Hexec. simpl.
  destruct (Z.ltb_spec 0 (meminfo_available stdout)); [lia | done].
Qed.

Lemma getMemoryInfo_fallback h :
  memory_query_unavailable h →
  getMemoryInfo h = Returned (memory_info (totalmem h) (freemem h)).
Proof.
  unfold getMemoryInfo, vm_stat_accounting, meminfo_accounting.
  intros [[Hos [e He]] | [[Hos [e He]] | [Hd Hl]]].
  - by rewrite Hos, He.
  - by rewrite Hos, He.
  - apply String.eqb_neq in Hd, Hl. by rewrite Hd, Hl.
Qed.

(** Whatever the platform and the commands do, [getMemoryInfo] returns, and
    what it returns is built by [memory_info] from the total and one of the
    three figures for free memory. *)
Lemma getMemoryInfo_returns h :
  ∃ freeMemory, getMemoryInfo h = Returned (memory_info (totalmem h) freeMemory).
Proof.
  unfold getMemoryInfo, vm_stat_accounting, meminfo_accounting.
  destruct (String.eqb (platform h) "darwin").
  { destruct (exec h "vm_stat"); simpl; eauto. }
  destruct (String.eqb (platform h) "linux"); [| simpl; eauto].
  destruct (exec h "cat /proc/meminfo") as [stdout | e]; simpl; [| eauto].
  destruct (0 <? meminfo_available stdout); simpl; eauto.
Qed.

End Memory.

(** C5: every [MemoryInfo] that [getMemoryInfo] returns has
    [used + free = total]: on the path of [vm_stat], on the path of
    [/proc/meminfo] and on the fallback; and [getMemoryInfo] returns on every
    host. *)
Theorem getMemoryInfo_used_free_total (h : Host) :
  (∃ info, getMemoryInfo h = Returned info
     ∧ MemoryInfo.used info + MemoryInfo.free info = MemoryInfo.total info)
  ∧ (∀ stdout, platform h = "darwin" → exec h "vm_stat" = Returned stdout →
       ∃ info, getMemoryInfo h = Returned info
         ∧ MemoryInfo.free info = vm_stat_available stdout
         ∧ MemoryInfo.used info + MemoryInfo.free info = MemoryInfo.total info)
  ∧ (∀ stdout, platform h = "linux" → exec h "cat /proc/meminfo" = Returned stdout →
       0 < meminfo_available stdout →
       ∃ info, getMemoryInfo h = Returned info
         ∧ MemoryInfo.free info = meminfo_available stdout
         ∧ MemoryInfo.used info + MemoryInfo.free info = MemoryInfo.total info)
  ∧ (memory_query_unavailable h →
       ∃ info, getMemoryInfo h = Returned info
         ∧ MemoryInfo.free info = freemem h
         ∧ MemoryInfo.used info + MemoryInfo.free info = MemoryInfo.total info).
Proof.
  repeat split.
  - destruct (getMemoryInfo_returns h) as [f ->]. eexists. split; [done |]. simpl. lia.
  - intros stdout Hos Hexec. rewrite (getMemoryInfo_darwin _ _ Hos Hexec).
    eexists. repeat split. simpl. lia.
  - intros stdout Hos Hexec Hpos. rewrite (getMemoryInfo_linux _ _ Hos Hexec Hpos).
    eexists. repeat split. simpl. lia.
  - intros Hfail. rewrite (getMemoryInfo_fallback _ Hfail).
    eexists. repeat split. simpl. lia.
Qed.

(** The three paths: [vm_stat] on the macOS host, [/proc/meminfo] on the
    Linux host, and the fallback where the command fails. *)
Lemma getMemoryInfo_used_free_total_witness :
  (∃ info, getMemoryInfo darwin_host = Returned info
     ∧ MemoryInfo.free info = 116000 * 16384
     ∧ MemoryInfo.used info + MemoryInfo.free info = MemoryInfo.total info)
  ∧ (∃ info, getMemoryInfo linux_host = Returned info
       ∧ MemoryInfo.free info = 8388608 * 1024
       ∧ MemoryInfo.used info + MemoryInfo.free info = MemoryInfo.total info)
  ∧ (∃ info, getMemoryInfo (failing_host "linux") = Returned info
       ∧ MemoryInfo.free info = 4 * 1024 ^ 3
       ∧ MemoryInfo.used info + MemoryInfo.free info = MemoryInfo.total info).
Proof.
  split; [| split].
  - apply (proj1 (proj2 (getMemoryInfo_used_free_total darwin_host)) vm_stat_output);
      reflexivity.
  - apply (proj1 (proj2 (proj2 (getMemoryInfo_used_free_total linux_host)))
             meminfo_output); [reflexivity | reflexivity | by vm_compute].
  - apply (proj2 (proj2 (proj2 (getMemoryInfo_used_free_total (failing_host "linux"))))).
    right. left. split; [reflexivity | by exists "Command failed"].
Defined.

(** C6: every [MemoryInfo] that [getMemoryInfo] returns has
    [percent = Math.round((used / total) * 100)], whichever path produced
    [used] and [total]. *)
Theorem getMemoryInfo_percent (h : Host) :
  ∃ info, getMemoryInfo h = Returned info
    ∧ MemoryInfo.percent info =
        Math_round (PrimFloat.mul
          (PrimFloat.div (Z2Num (MemoryInfo.used info)) (Z2Num (MemoryInfo.total info)))
          100).
Proof. destruct (getMemoryInfo_returns h) as [f ->]. by eexists. Qed.

(** The three paths on the hosts of the examples; with 16 GiB in total and
    8 GiB used the percentage is 50. *)
Example getMemoryInfo_examples :
  getMemoryInfo linux_host =
    Returned {| MemoryInfo.total := 17179869184; MemoryInfo.free := 8589934592;
                MemoryInfo.used := 8589934592; MemoryInfo.percent := 50 |}
  ∧ getMemoryInfo darwin_host =
    Returned {| MemoryInfo.total := 17179869184; MemoryInfo.free := 1900544000;
                MemoryInfo.used := 15279325184; MemoryInfo.percent := 89 |}
  ∧ getMemoryInfo (failing_host "linux") =
    Returned {| MemoryInfo.total := 17179869184; MemoryInfo.free := 4294967296;
                MemoryInfo.used := 12884901888; MemoryInfo.percent := 75 |}.
Proof. by vm_compute. Qed.

(** An output that has no line the branch looks for: on macOS the page
    counts stay 0 and everything counts as used, on Linux [memAvailable]
    stays 0 and the fallback is taken. *)
Example getMemoryInfo_unexpected_output :
  getMemoryInfo (host_of "darwin" (λ _, Returned "no such statistics")) =
    Returned {| MemoryInfo.total := 17179869184; MemoryInfo.free := 0;
                MemoryInfo.used := 17179869184; MemoryInfo.percent := 100 |}
  ∧ getMemoryInfo (host_of "linux" (λ _, Returned "no such statistics")) =
    Returned {| MemoryInfo.total := 17179869184; MemoryInfo.free := 4294967296;
                MemoryInfo.used := 12884901888; MemoryInfo.percent := 75 |}.
Proof. by vm_compute. Qed.

(** ** Lines, white space and tokens *)

Section Strings.
Implicit Types (s t : string) (c : ascii).

Lemma newline_is_space c : Ascii.eqb c newline = true → is_space c = true.
Proof. by intros ->%Ascii.eqb_eq. Qed.

Lemma split_not_nil sep s : ∃ piece rest, split sep s = piece :: rest.
Proof.
  induction s as [|c s [p [r IH]]]; simpl; [by eauto |].
  destruct (Ascii.eqb c sep); [by eauto |]. rewrite IH. eauto.
Qed.

(** [trimStart] leaves nothing, or a string that starts with a character
    that is not white space. *)
Lemma trimStart_head s :
  trimStart s = "" ∨ ∃ c t, trimStart s = String c t ∧ is_space c = false.
Proof.
  induction s as [|c s IH]; simpl; [by left |].
  destruct (is_space c) eqn:Hc; [done |]. right. eauto.
Qed.

Lemma trimStart_idemp s : trimStart (trimStart s) = trimStart s.
Proof.
  destruct (trimStart_head s) as [-> | (c & t & -> & Hc)]; [done |].
  simpl. by rewrite Hc.
Qed.

(** [trimEnd], one character further to the left. *)
Lemma trimEnd_cons c s :
  trimEnd (String c s) =
    if nonempty (trimEnd s) then String c (trimEnd s)
    else if is_space c then "" else String c "".
Proof. simpl. by destruct (trimEnd s). Qed.

Lemma trimEnd_idemp s : trimEnd (trimEnd s) = trimEnd s.
Proof.
  induction s as [|c s IH]; [done |].
  rewrite trimEnd_cons.
  destruct (nonempty (trimEnd s)) eqn:Hne.
  - rewrite trimEnd_cons, IH, Hne. done.
  - destruct (is_space c) eqn:Hc; [done |]. simpl. by rewrite Hc.
Qed.

(** The two halves of [trim] commute. *)
Lemma trimEnd_trimStart s : trimEnd (trimStart s) = trimStart (trimEnd s).
Proof.
  induction s as [|c s IH]; [done |].
  rewrite trimEnd_cons. simpl trimStart at 1.
  destruct (is_space c) eqn:Hc.
  - rewrite IH. destruct (trimEnd s) eqn:Hr; simpl; [done |]. by rewrite Hc.
  - rewrite trimEnd_cons.
    destruct (nonempty (trimEnd s)); simpl; by rewrite Hc.
Qed.

(** [trim] sees a line only through [trimEnd] of it. *)
Lemma trim_trimEnd s : trim (trimEnd s) = trim s.
Proof.
  unfold trim. by rewrite !trimEnd_trimStart, trimEnd_idemp.
Qed.

(** The lines of [trimStart s]: the blank lines in front are gone, and the
    first line that is not blank has lost its white space in front. *)
Lemma split_trimStart s :
  split newline (trimStart s) =
    match skip_blank (split newline s) with
    | [] => [""]
    | line :: rest => trimStart line :: rest
    end.
Proof.
  induction s as [|c s IH]; [done |]. simpl.
  destruct (split_not_nil newline s) as (p & r & Hs).
  destruct (is_space c) eqn:Hc.
  - rewrite IH, Hs. destruct (Ascii.eqb c newline); simpl; [done |].
    rewrite Hc. simpl. destruct (blank p); simpl; [reflexivity | by rewrite Hc].
  - destruct (Ascii.eqb c newline) eqn:Hnl.
    { by rewrite (newline_is_space _ Hnl) in Hc. }
    simpl. rewrite Hnl, Hs. simpl. rewrite Hc. simpl. by rewrite Hc.
Qed.

(** ** Tokens *)

Lemma tokens_cons_space c s : is_space c = true → tokens (String c s) = tokens s.
Proof. intros Hc. unfold tokens. simpl. by rewrite Hc. Qed.

Lemma tokens_trimStart s : tokens (trimStart s) = tokens s.
Proof.
  induction s as [|c s IH]; [done |]. simpl.
  destruct (is_space c) eqn:Hc; [| done]. by rewrite tokens_cons_space.
Qed.

(** [trimEnd] keeps the first piece and the tokens after it. *)
Lemma pieces_trimEnd s :
  ∃ p r r', pieces (trimEnd s) = p :: r ∧ pieces s = p :: r'
    ∧ List.filter nonempty r = List.filter nonempty r'.
Proof.
  induction s as [|c s (p & r & r' & Ht & Hs & Hf)]; [by exists "", [], [] |].
  rewrite trimEnd_cons. simpl. rewrite Hs.
  destruct (nonempty (trimEnd s)) eqn:Hne.
  - simpl. rewrite Ht. destruct (is_space c).
    + exists "", (p :: r), (p :: r'). simpl. by rewrite Hf.
    + by exists (String c p), r, r'.
  - destruct (trimEnd s); [| done]. simpl in Ht. injection Ht as <- <-.
    simpl in Hf.
    destruct (is_space c) eqn:Hc; simpl.
    + by exists "", [], ("" :: r').
    + rewrite Hc. by exists (String c ""), [], r'.
Qed.

Lemma tokens_trimEnd s : tokens (trimEnd s) = tokens s.
Proof.
  destruct (pieces_trimEnd s) as (p & r & r' & Ht & Hs & Hf).
  unfold tokens. rewrite Ht, Hs. simpl. by rewrite Hf.
Qed.

Lemma tokens_trim s : tokens (trim s) = tokens s.
Proof. unfold trim. by rewrite tokens_trimEnd, tokens_trimStart. Qed.

(** [split(/\s+/)] and the cut at every white-space character have the same
    first piece and the same tokens after it. *)
Lemma split_spaces_from_pieces s :
  (∃ p r r', split_spaces_from false s = p :: r ∧ pieces s = p :: r'
     ∧ List.filter nonempty r = List.filter nonempty r')
  ∧ List.filter nonempty (split_spaces_from true s) = tokens s.
Proof.
  unfold tokens.
  induction s as [|c s [(p & r & r' & Hf & Hp & Hrr) Ht]]; simpl.
  { split; [by exists "", [], [] | done]. }
  rewrite Hf, Hp. destruct (is_space c) eqn:Hc.
  - split; [| by rewrite Ht, Hp].
    exists "", (split_spaces_from true s), (p :: r'). by rewrite Ht, Hp.
  - split; [by exists (String c p), r, r' |]. simpl. by rewrite Hrr.
Qed.

Lemma filter_split_spaces s :
  List.filter nonempty (split_spaces s) = tokens s.
Proof.
  destruct (split_spaces_from_pieces s) as [(p & r & r' & Hf & Hp & Hrr) _].
  unfold split_spaces, tokens. rewrite Hf, Hp. simpl. by rewrite Hrr.
Qed.

(** After [trimEnd] no piece but the first can be empty. *)
Lemma split_spaces_from_trimEnd s :
  nonempty (trimEnd s) = true →
  forallb nonempty (split_spaces_from true (trimEnd s)) = true
  ∧ ∃ p r, split_spaces_from false (trimEnd s) = p :: r
      ∧ forallb nonempty r = true.
Proof.
  induction s as [|c s IH]; [done |].
  rewrite trimEnd_cons.
  destruct (nonempty (trimEnd s)) eqn:Hne.
  - intros _. destruct (IH eq_refl) as [Ht (p & r & Hf & Hr)].
    simpl. rewrite Hf. destruct (is_space c).
    + split; [done |]. by exists "", (split_spaces_from true (trimEnd s)).
    + split; [done |]. by exists (String c p), r.
  - destruct (is_space c) eqn:Hc; [done |]. intros _.
    simpl. rewrite Hc. simpl. split; [done |]. by exists (String c ""), [].
Qed.

Lemma filter_forallb {A} (f : A → bool) (l : list A) :
  forallb f l = true → List.filter f l = l.
Proof.
  induction l as [|x l IH]; [done |]. simpl.
  intros [-> Hl]%andb_prop. by rewrite (IH Hl).
Qed.

(** The parts that the loop reads off a line are its tokens; a line without
    tokens gives the one empty part. *)
Lemma split_spaces_trim s :
  split_spaces (trim s) =
    match tokens s with
    | [] => [""]
    | ts => ts
    end.
Proof.
  rewrite <- (tokens_trim s), <- (filter_split_spaces (trim s)).
  assert (Ht : trim s = trimStart (trimEnd s)) by apply trimEnd_trimStart.
  destruct (trimStart_head (trimEnd s)) as [Hnil | (c & t & Heq & Hc)].
  { by rewrite Ht, Hnil. }
  assert (Hne : nonempty (trimEnd (trimStart s)) = true).
  { fold (trim s). by rewrite Ht, Heq. }
  destruct (split_spaces_from_trimEnd _ Hne) as [_ (p & r & Hf & Hr)].
  fold (trim s) in Hf. unfold split_spaces. rewrite Hf.
  assert (Hp : nonempty p = true).
  { rewrite Ht, Heq in Hf. simpl in Hf. rewrite Hc in Hf.
    destruct (split_spaces_from false t); by injection Hf as <- _. }
  simpl. rewrite Hp, (filter_forallb _ _ Hr). done.
Qed.

End Strings.

(** ** The integers read by [parseInt] *)

Section Digits.
Implicit Types (s d : string) (c : ascii).

Lemma takeDigits_idemp s : takeDigits (takeDigits s) = takeDigits s.
Proof.
  induction s as [|c s IH]; [done |]. simpl.
  destruct (is_digit c) eqn:Hc; [| done]. simpl. by rewrite Hc, IH.
Qed.

(** A run of digits that is not empty starts with a digit. *)
Lemma takeDigits_cons s c d :
  takeDigits s = String c d → is_digit c = true ∧ takeDigits (String c d) = String c d.
Proof.
  destruct s as [|c' s]; [done |]. simpl.
  destruct (is_digit c') eqn:Hc; [| done].
  intros [= <- <-]. split; [done |]. simpl. by rewrite Hc, takeDigits_idemp.
Qed.

(** On a run of digits [parseInt] skips nothing, reads no sign and returns
    the integer that the digits spell. *)
Lemma parseInt_digits c d :
  is_digit c = true →
  takeDigits (String c d) = String c d →
  parseInt (String c d) = Z2Num (digits_value (String c d)).
Proof.
  intros Hc Hd. unfold parseInt.
  assert (Hs : is_space c = false ∧ Ascii.eqb c "-" = false ∧ Ascii.eqb c "+" = false).
  { by destruct c as [[] [] [] [] [] [] [] []]. }
  destruct Hs as (Hs & Hminus & Hplus).
  simpl trimStart. rewrite Hs, Hminus, Hplus, Hd. done.
Qed.

Lemma match_digits_Some line d :
  match_digits line = Some d →
  ∃ c d', d = String c d' ∧ is_digit c = true ∧ takeDigits d = d.
Proof.
  induction line as [|c line IH]; [done |]. simpl.
  destruct (is_digit c) eqn:Hc; [| done].
  intros [= <-]. exists c, (takeDigits line).
  split; [done |]. split; [done |]. simpl. by rewrite Hc, takeDigits_idemp.
Qed.

Lemma parseInt_line_number line :
  parseInt (default "0" (match_digits line)) = Z2Num (line_number line).
Proof.
  unfold line_number.
  destruct (match_digits line) as [d|] eqn:Hm; [| done].
  destruct (match_digits_Some _ _ Hm) as (c & d' & -> & Hc & Hd).
  by apply parseInt_digits.
Qed.

Lemma parseInt_page_size s d :
  match_page_size s = Some d → parseInt d = Z2Num (digits_value d).
Proof.
  induction s as [|c s IH]; simpl.
  - unfold page_size_here. simpl. done.
  - destruct (page_size_here (String c s)) as [d0|] eqn:Hh; [| done].
    intros [= <-]. unfold page_size_here in Hh.
    destruct (strip_prefix _ _) as [r|]; [| done].
    destruct (takeDigits r) as [|c0 d0'] eqn:Hr; [done |].
    destruct (strip_prefix " bytes" _); [| done].
    injection Hh as <-.
    destruct (takeDigits_cons _ _ _ Hr) as [Hc Hd]. by apply parseInt_digits.
Qed.

End Digits.

(** ** The rows of the process listing *)

Section Rows.
Context `{Runtime}.
Implicit Types (line : string) (lines rows : list string).

Lemma entries_cons line lines :
  entries (line :: lines) =
    (if well_formed line then [process_of (tokens line)] else []) ++ entries lines.
Proof. unfold entries. simpl. by destruct (well_formed line). Qed.

(** A line counts through its tokens only. *)
Lemma entries_cons_ext line line' lines lines' :
  tokens line = tokens line' →
  entries lines = entries lines' →
  entries (line :: lines) = entries (line' :: lines').
Proof.
  intros Ht Hl. rewrite !entries_cons, Hl. unfold well_formed. by rewrite Ht.
Qed.

Lemma push_line_entries line processes :
  push_line line processes = processes ++ entries [line].
Proof.
  unfold push_line. rewrite split_spaces_trim, entries_cons. unfold well_formed.
  destruct (tokens line) as [|t ts] eqn:Ht; [simpl; by rewrite app_nil_r |].
  generalize (t :: ts). intros parts. unfold entries.
  destruct (11 <=? length parts)%nat; simpl; by rewrite ?app_nil_r.
Qed.

Lemma for_lines_entries lines : ∀ processes,
  for_lines lines processes = processes ++ entries lines.
Proof.
  induction lines as [|line lines IH]; intros processes; simpl.
  - unfold entries. simpl. by rewrite app_nil_r.
  - rewrite IH, push_line_entries, <- app_assoc. f_equal.
    rewrite (entries_cons line lines), (entries_cons line []).
    unfold entries at 2. simpl. by rewrite app_nil_r.
Qed.

Lemma tokens_of_trimEnd_eq line line' :
  trimEnd line = trimEnd line' → tokens line = tokens line'.
Proof.
  intros Heq. by rewrite <- (tokens_trimEnd line), Heq, tokens_trimEnd.
Qed.

(** The lines of [trimEnd s]: the first keeps its tokens, and the lines
    after it give the same entries. *)
Lemma split_trimEnd_entries (s : string) :
  ∃ line' rest' line rest,
    split newline (trimEnd s) = line' :: rest'
    ∧ split newline s = line :: rest
    ∧ trimEnd line' = trimEnd line
    ∧ entries rest' = entries rest.
Proof.
  induction s as [|c s (l' & r' & l & r & Ht & Hs & Hl & Hr)].
  { by exists "", [], "", []. }
  rewrite trimEnd_cons. simpl split at 2. rewrite Hs.
  destruct (nonempty (trimEnd s)) eqn:Hne.
  - simpl. rewrite Ht. destruct (Ascii.eqb c newline).
    + exists "", (l' :: r'), "", (l :: r). repeat split.
      apply entries_cons_ext; [by apply tokens_of_trimEnd_eq | done].
    + exists (String c l'), r', (String c l), r. repeat split; [| done].
      by rewrite !trimEnd_cons, Hl.
  - destruct (trimEnd s); [| done]. simpl in Ht. injection Ht as <- <-.
    simpl in Hl. symmetry in Hl.
    destruct (is_space c) eqn:Hc.
    + simpl. destruct (Ascii.eqb c newline).
      * exists "", [], "", (l :: r). repeat split.
        rewrite entries_cons. unfold well_formed.
        rewrite <- (tokens_trimEnd l), Hl. simpl. done.
      * exists "", [], (String c l), r. repeat split; [| done].
        by rewrite trimEnd_cons, Hl, Hc.
    + destruct (Ascii.eqb c newline) eqn:Hnl.
      { by rewrite (newline_is_space _ Hnl) in Hc. }
      simpl. rewrite Hnl. exists (String c ""), [], (String c l), r.
      repeat split; [| done]. by rewrite !trimEnd_cons, Hl, Hc.
Qed.

(** What [getProcesses] returns when the command succeeds: the entries of
    the rows after the header. *)
Lemma getProcesses_rows (h : Host) (stdout : string) :
  exec h (ps_command (platform h)) = Returned stdout →
  getProcesses h = Returned (entries (rows_after_header stdout)).
Proof.
  intros Hexec. unfold getProcesses. rewrite Hexec. simpl. f_equal.
  rewrite for_lines_entries. simpl. unfold trim, rows_after_header.
  destruct (split_trimEnd_entries (trimStart stdout))
    as (l' & r' & l & r & Ht & Hs & _ & Hr).
  rewrite Ht. simpl. rewrite drop_0, Hr.
  rewrite split_trimStart in Hs.
  destruct (skip_blank (split newline stdout)); by injection Hs as _ <-.
Qed.

(** The lines that [head] lets through are the first [n] lines; an empty
    piece follows them where the output ends with a newline. *)
Lemma split_head_lines (s : string) : ∀ n,
  ∃ extra, (extra = [] ∨ extra = [""])
    ∧ split newline (head_lines n s) = take n (split newline s) ++ extra.
Proof.
  induction s as [|c s IH]; intros [|n]; simpl.
  - exists [""]. auto.
  - exists []. rewrite take_nil. auto.
  - exists [""]. auto.
  - destruct (Ascii.eqb c newline) eqn:Hnl; simpl; rewrite Hnl.
    + destruct (IH n) as (extra & Hx & ->). by exists extra.
    + destruct (IH (S n)) as (extra & Hx & ->).
      destruct (split_not_nil newline s) as (p & r & ->). simpl. by exists extra.
Qed.

Lemma entries_app rows rows' : entries (rows ++ rows') = entries rows ++ entries rows'.
Proof. unfold entries. by rewrite List.filter_app, fmap_app. Qed.

Lemma entries_length rows : (length (entries rows) ≤ length rows)%nat.
Proof.
  unfold entries. rewrite length_fmap. apply List.filter_length_le.
Qed.

Lemma entries_well_formed rows :
  Forall (λ row, well_formed row = true) rows →
  entries rows = (λ row, process_of (tokens row)) <$> rows.
Proof.
  unfold entries. intros Hwf. f_equal.
  induction Hwf as [|row rows Hrow _ IH]; [done |]. simpl. by rewrite Hrow, IH.
Qed.

(** Empty pieces at the end add no entry. *)
Lemma entries_rows_app_blank lines extra :
  extra = [] ∨ extra = [""] →
  entries (tail (skip_blank (lines ++ extra))) = entries (tail (skip_blank lines)).
Proof.
  intros Hx. induction lines as [|line lines IH]; simpl.
  - by destruct Hx as [-> | ->].
  - destruct (blank line); [done |]. simpl. rewrite entries_app.
    destruct Hx as [-> | ->]; by rewrite app_nil_r.
Qed.

Lemma tail_skip_blank_length lines :
  (length (tail (skip_blank lines)) ≤ length lines - 1)%nat.
Proof.
  induction lines as [|line lines IH]; simpl; [lia |].
  destruct (blank line); simpl; lia.
Qed.

(** Through [| head -n] the entries are those of the first [n] lines of what
    [ps] prints. *)
Lemma entries_head_lines (n : nat) (raw : string) :
  entries (rows_after_header (head_lines n raw)) =
    entries (tail (skip_blank (take n (split newline raw)))).
Proof.
  unfold rows_after_header.
  destruct (split_head_lines raw n) as (extra & Hx & ->).
  by apply entries_rows_app_blank.
Qed.

Lemma getProcesses_failed (h : Host) (e : string) :
  exec h (ps_command (platform h)) = Thrown e →
  getProcesses h = Returned [].
Proof. intros Hexec. unfold getProcesses. by rewrite Hexec. Qed.

Lemma getProcesses_returns (h : Host) : ∃ processes, getProcesses h = Returned processes.
Proof.
  destruct (exec h (ps_command (platform h))) as [stdout | e] eqn:Hexec.
  - rewrite (getProcesses_rows _ _ Hexec). eauto.
  - rewrite (getProcesses_failed _ _ Hexec). eauto.
Qed.

End Rows.

(** ** The process listing *)

(** C7: when the command succeeds, [getProcesses] returns, in order, one
    entry for every line after the header that has at least 11 tokens, and
    none for a line that has fewer; the entry takes its fields from the
    tokens by position, [vsz] and [rss] being [formatBytes] of the token
    read as an integer and multiplied by 1024, and [command] the tokens from
    the 11th on joined by single spaces and cut to 80 characters; an output
    that is a header only gives no entry. *)
Theorem getProcesses_parsing `{Runtime} (h : Host) (stdout : string) :
  exec h (ps_command (platform h)) = Returned stdout →
  getProcesses h =
    Returned ((λ row, process_of (tokens row))
                <$> List.filter (λ row, (11 <=? length (tokens row))%nat)
                      (rows_after_header stdout))
  ∧ (∀ u p c m v r t s st ti cmd,
       process_of (u :: p :: c :: m :: v :: r :: t :: s :: st :: ti :: cmd) =
         {| ProcessInfo.user := u;
            ProcessInfo.pid := parseInt p;
            ProcessInfo.cpu := parseFloat c;
            ProcessInfo.mem := parseFloat m;
            ProcessInfo.vsz :=
              formatBytes (PrimFloat.mul (parseInt v) 1024);
            ProcessInfo.rss :=
              formatBytes (PrimFloat.mul (parseInt r) 1024);
            ProcessInfo.tty := t;
            ProcessInfo.stat := s;
            ProcessInfo.start := st;
            ProcessInfo.time := ti;
            ProcessInfo.command := substring 0 80 (join " " cmd) |})
  ∧ (∀ header,
       split newline stdout = [header] ∨ split newline stdout = [header; ""] →
       getProcesses h = Returned []).
Proof.
  intros Hexec. rewrite (getProcesses_rows _ _ Hexec).
  split; [done |]. split; [done |].
  intros header Hlines. unfold rows_after_header.
  destruct Hlines as [-> | ->]; simpl; by destruct (blank header).
Qed.

(** The Linux host of the examples: the header and the row of two tokens
    give nothing, and the two rows that are well formed give their entries. *)
Lemma getProcesses_parsing_witness :
  @getProcesses ExampleRuntime.runtime linux_host =
    Returned
      [ {| ProcessInfo.pid := 1; ProcessInfo.user := "root";
           ProcessInfo.cpu := 0; ProcessInfo.mem := PrimFloat.div 1 10;
           ProcessInfo.vsz := VString "164.1M"; ProcessInfo.rss := VString "11M";
           ProcessInfo.tty := "?"; ProcessInfo.stat := "Ss";
           ProcessInfo.start := "Oct01"; ProcessInfo.time := "0:03";
           ProcessInfo.command := "/sbin/init splash" |};
        {| ProcessInfo.pid := 2211; ProcessInfo.user := "www";
           ProcessInfo.cpu := 1.5; ProcessInfo.mem := 2;
           ProcessInfo.vsz := VString "2M"; ProcessInfo.rss := VString "512K";
           ProcessInfo.tty := "pts/0"; ProcessInfo.stat := "R+";
           ProcessInfo.start := "10:00"; ProcessInfo.time := "0:00";
           ProcessInfo.command := "node server.js" |} ].
Proof.
  rewrite (proj1 (getProcesses_parsing linux_host ps_output eq_refl)).
  by vm_compute.
Defined.

(** C2, the claim as stated fails. Where [ps] prints a header and fifty rows
    that are well formed, the pipe lets the header and 49 rows through, and
    [getProcesses] returns 49 entries, not 50. And [getProcesses] itself has
    no bound: on an output of a header and 51 rows it returns 51 entries. *)
Lemma getProcesses_fifty_rows_gives_49 :
  length (List.filter well_formed (rows_after_header fifty_rows)) = 50%nat
  ∧ (∃ processes,
       @getProcesses ExampleRuntime.runtime (piped_host "linux" fifty_rows)
         = Returned processes
       ∧ length processes = 49%nat
       ∧ length processes ≠ 50%nat)
  ∧ (∃ processes,
       @getProcesses ExampleRuntime.runtime
         (host_of "linux"
            (λ _, Returned (unlines (header_line :: replicate 51 sample_row))))
         = Returned processes
       ∧ length processes = 51%nat
       ∧ ¬ (length processes ≤ 50)%nat).
Proof.
  split; [by vm_compute |]. split.
  - eexists. split; [by vm_compute |]. by vm_compute.
  - eexists. split; [by vm_compute |]. split; [by vm_compute |]. simpl. lia.
Qed.

(** C2, amended: [getProcesses] returns one entry for every well-formed row
    of the output it is given and cuts nothing itself; the bound is the
    [| head -50] that ends the command line, which lets 50 lines through,
    the header among them. So when [ps] prints a header that is not blank
    and then at least 49 rows that are well formed, [getProcesses] returns
    exactly 49 entries, those of the first 49 rows in the order [ps] printed
    them; whatever [ps] prints the result has at most 49 entries (so at
    most 50); and where the command fails it has none. *)
Theorem getProcesses_bound `{Runtime} (h : Host) :
  (∀ stdout, exec h (ps_command (platform h)) = Returned stdout →
     ∃ processes, getProcesses h = Returned processes
       ∧ length processes =
           length (List.filter (λ row, (11 <=? length (tokens row))%nat)
                     (rows_after_header stdout)))
  ∧ (∀ raw, exec h (ps_command (platform h)) = Returned (head_lines 50 raw) →
       ∃ processes, getProcesses h = Returned processes
         ∧ (length processes ≤ 49)%nat)
  ∧ (∀ raw header rows,
       exec h (ps_command (platform h)) = Returned (head_lines 50 raw) →
       split newline raw = header :: rows →
       blank header = false →
       (49 ≤ length rows)%nat →
       Forall (λ row, (11 <=? length (tokens row))%nat = true) (take 49 rows) →
       getProcesses h =
         Returned ((λ row, process_of (tokens row)) <$> take 49 rows)
       ∧ length ((λ row, process_of (tokens row)) <$> take 49 rows) = 49%nat)
  ∧ (∀ e, exec h (ps_command (platform h)) = Thrown e →
       getProcesses h = Returned []).
Proof.
  split; [| split; [| split]].
  - intros stdout Hexec. rewrite (getProcesses_rows _ _ Hexec).
    eexists. split; [done |]. unfold entries. by rewrite length_fmap.
  - intros raw Hexec. rewrite (getProcesses_rows _ _ Hexec), entries_head_lines.
    eexists. split; [done |].
    etransitivity; [apply entries_length |].
    etransitivity; [apply tail_skip_blank_length |].
    rewrite length_take. lia.
  - intros raw header rows Hexec Hraw Hheader Hlen Hwf.
    rewrite (getProcesses_rows _ _ Hexec), entries_head_lines, Hraw.
    simpl. rewrite Hheader. simpl.
    rewrite (entries_well_formed _ Hwf), length_fmap, length_take.
    split; [done | lia].
  - intros e Hexec. by apply getProcesses_failed with e.
Qed.

(** The host whose [ps] prints a header and fifty rows. *)
Lemma getProcesses_bound_witness :
  (∃ processes,
     @getProcesses ExampleRuntime.runtime (piped_host "linux" fifty_rows)
       = Returned processes
     ∧ (length processes ≤ 49)%nat)
  ∧ @getProcesses ExampleRuntime.runtime (piped_host "linux" fifty_rows) =
      Returned ((λ row, @process_of ExampleRuntime.runtime (tokens row))
                  <$> replicate 49 sample_row).
Proof.
  split.
  - apply (proj1 (proj2 (getProcesses_bound (piped_host "linux" fifty_rows)))
             fifty_rows).
    reflexivity.
  - apply (proj1 (proj2 (proj2 (getProcesses_bound (piped_host "linux" fifty_rows))))
             fifty_rows header_line (replicate 50 sample_row ++ [""])).
    + reflexivity.
    + by vm_compute.
    + reflexivity.
    + rewrite length_app, length_replicate. simpl. lia.
    + change (take 49 (replicate 50 sample_row ++ [""]))
        with (replicate 49 sample_row).
      apply Forall_replicate. by vm_compute.
Defined.

(** ** The aggregate *)

(** [getSystemMetrics] returns on every host, with what the three
    collectors return passed through. *)
Lemma getSystemMetrics_returns `{Runtime} (h : Host) (c : Cache) :
  ∃ m info,
    getSystemMetrics h c = Returned (m, (getCpuUsage (cpus_again h) c).2)
    ∧ getProcesses h = Returned (processes m)
    ∧ processCount m = length (processes m)
    ∧ cpuUsage m = (getCpuUsage (cpus_again h) c).1
    ∧ getMemoryInfo h = Returned info
    ∧ totalMem m = MemoryInfo.total info
    ∧ freeMem m = MemoryInfo.free info
    ∧ usedMem m = MemoryInfo.used info
    ∧ memPercent m = MemoryInfo.percent info.
Proof.
  unfold getSystemMetrics.
  destruct (getMemoryInfo_returns h) as [f ->].
  destruct (getProcesses_returns h) as [ps ->]. simpl.
  eexists _, _. repeat split.
Qed.

(** What the code does of what C8 says: a command that fails never makes a
    collector throw. Where the listing command fails, [getProcesses] returns
    the empty list and [getSystemMetrics] still returns an aggregate, with
    the usage of the cores and the memory figures in it; where the memory
    command of the platform is rejected, or the platform has none,
    [getMemoryInfo] returns the fallback, [used = total - freemem()], and so
    it does on Linux where the command succeeds with an output in which no
    line gives a positive [MemAvailable]; and on every host all three
    return. The case that is left, an unexpected output on macOS, is
    [getMemoryInfo_darwin_unexpected_format] below. *)
Lemma failures_are_not_thrown `{Runtime} (h : Host) :
  (∀ e, exec h (ps_command (platform h)) = Thrown e →
     getProcesses h = Returned []
     ∧ ∀ c, ∃ m info,
         getSystemMetrics h c = Returned (m, (getCpuUsage (cpus_again h) c).2)
         ∧ processes m = []
         ∧ cpuUsage m = (getCpuUsage (cpus_again h) c).1
         ∧ getMemoryInfo h = Returned info
         ∧ totalMem m = MemoryInfo.total info
         ∧ freeMem m = MemoryInfo.free info
         ∧ usedMem m = MemoryInfo.used info
         ∧ memPercent m = MemoryInfo.percent info)
  ∧ (memory_query_unavailable h →
       getMemoryInfo h =
         Returned {| MemoryInfo.total := totalmem h;
                     MemoryInfo.free := freemem h;
                     MemoryInfo.used := totalmem h - freemem h;
                     MemoryInfo.percent :=
                       Math_round (PrimFloat.mul
                         (PrimFloat.div (Z2Num (totalmem h - freemem h))
                                        (Z2Num (totalmem h))) 100) |})
  ∧ (platform h = "linux" → memory_output_unexpected h →
       getMemoryInfo h = Returned (memory_info (totalmem h) (freemem h)))
  ∧ (∃ processes, getProcesses h = Returned processes)
  ∧ (∃ info, getMemoryInfo h = Returned info)
  ∧ (∀ c, ∃ r, getSystemMetrics h c = Returned r).
Proof.
  split; [| split; [| split; [| split; [| split]]]].
  - intros e Hexec. pose proof (getProcesses_failed _ _ Hexec) as Hps.
    split; [done |]. intros c.
    destruct (getSystemMetrics_returns h c)
      as (m & info & Hm & Hp & _ & Hu & Hi & Ht & Hf & Hus & Hpc).
    exists m, info. rewrite Hps in Hp. injection Hp as <-. done.
  - apply getMemoryInfo_fallback.
  - intros Hos [[Hd _] | [_ (stdout & Hexec & Hle)]].
    + rewrite Hos in Hd. discriminate.
    + by apply (getMemoryInfo_linux_no_available h stdout).
  - apply getProcesses_returns.
  - destruct (getMemoryInfo_returns h) as [f Hf]. eauto.
  - intros c. destruct (getSystemMetrics_returns h c) as (m & _ & Hm & _). eauto.
Qed.

(** Hosts where every command fails. *)
Lemma failures_are_not_thrown_witness :
  @getProcesses ExampleRuntime.runtime (failing_host "darwin") = Returned []
  ∧ getMemoryInfo (failing_host "darwin") =
      Returned {| MemoryInfo.total := 17179869184; MemoryInfo.free := 4294967296;
                  MemoryInfo.used := 12884901888; MemoryInfo.percent := 75 |}
  ∧ getMemoryInfo (failing_host "freebsd") =
      Returned {| MemoryInfo.total := 17179869184; MemoryInfo.free := 4294967296;
                  MemoryInfo.used := 12884901888; MemoryInfo.percent := 75 |}.
Proof.
  split; [| split].
  - apply (proj1 (@failures_are_not_thrown ExampleRuntime.runtime (failing_host "darwin"))
             "Command failed" eq_refl).
  - rewrite (proj1 (proj2 (@failures_are_not_thrown ExampleRuntime.runtime
                             (failing_host "darwin")))).
    + by vm_compute.
    + left. split; [reflexivity | by exists "Command failed"].
  - rewrite (proj1 (proj2 (@failures_are_not_thrown ExampleRuntime.runtime
                             (failing_host "freebsd")))).
    + by vm_compute.
    + right. right. by split.
Defined.

(** C8, at the failing input: on macOS, where [vm_stat] succeeds and prints
    its counts under labels that the loop does not look for, the query has
    failed in the sense of the claim (unexpected output format), and
    [getMemoryInfo] does not return the fallback: the [try] block returns
    with every page count at 0, so [free = 0], [used = total] and the
    percentage is 100, while the fallback would give [free = freemem()] and
    75. The Linux branch guards its result with [memAvailable > 0] and does
    fall back on the same output; the macOS branch has no such guard. *)
Theorem getMemoryInfo_darwin_unexpected_format :
  memory_query_fails darwin_other_labels
  ∧ getMemoryInfo darwin_other_labels =
      Returned {| MemoryInfo.total := 17179869184; MemoryInfo.free := 0;
                  MemoryInfo.used := 17179869184; MemoryInfo.percent := 100 |}
  ∧ getMemoryInfo darwin_other_labels ≠
      Returned (memory_info (totalmem darwin_other_labels)
                            (freemem darwin_other_labels))
  ∧ memory_query_fails linux_other_labels
  ∧ getMemoryInfo linux_other_labels =
      Returned (memory_info (totalmem linux_other_labels)
                            (freemem linux_other_labels))
  ∧ memory_info (totalmem linux_other_labels) (freemem linux_other_labels) =
      {| MemoryInfo.total := 17179869184; MemoryInfo.free := 4294967296;
         MemoryInfo.used := 12884901888; MemoryInfo.percent := 75 |}.
Proof.
  split; [| split; [| split; [| split; [| split]]]].
  - right. left. split; [reflexivity |].
    exists vm_stat_other_labels. split; [reflexivity |].
    vm_compute. repeat constructor.
  - by vm_compute.
  - vm_compute. intros [=].
  - right. right. split; [reflexivity |].
    exists vm_stat_other_labels. split; [reflexivity |]. by vm_compute.
  - by vm_compute.
  - by vm_compute.
Qed.

(** C10: the aggregate that [getSystemMetrics] returns has
    [processCount = length processes], on every host; where the listing
    command fails [processes] is empty and [processCount] is 0. *)
Theorem processCount_is_length `{Runtime} (h : Host) (c : Cache) :
  ∃ m c',
    getSystemMetrics h c = Returned (m, c')
    ∧ processCount m = length (processes m)
    ∧ (∀ e, exec h (ps_command (platform h)) = Thrown e →
         processes m = [] ∧ processCount m = 0%nat).
Proof.
  destruct (getSystemMetrics_returns h c) as (m & _ & Hm & Hp & Hc & _).
  exists m, (getCpuUsage (cpus_again h) c).2.
  split; [done |]. split; [done |].
  intros e Hexec. rewrite (getProcesses_failed _ _ Hexec) in Hp.
  injection Hp as Hnil. by rewrite Hc, <- Hnil.
Qed.

(** A host whose listing command fails. *)
Lemma processCount_is_length_witness :
  ∃ m c',
    @getSystemMetrics ExampleRuntime.runtime (failing_host "linux") ∅ = Returned (m, c')
    ∧ processes m = [] ∧ processCount m = 0%nat.
Proof.
  destruct (@processCount_is_length ExampleRuntime.runtime (failing_host "linux") ∅)
    as (m & c' & Hm & _ & Hfail).
  exists m, c'. split; [exact Hm |]. by apply (Hfail "Command failed").
Defined.

(** * Further properties *)

(** ** The sampler *)

Lemma core_usage_core prev index cpu : CpuUsage.core (core_usage prev index cpu) = index.
Proof.
  unfold core_usage. destruct prev as [prev|]; [| done].
  by destruct (0 <? total_of (times cpu) - total_of prev).
Qed.

(** X1: [getCpuUsage] returns one entry for every core that [cpus()] lists,
    in the order of the cores, and the entry at position [i] has
    [core = i]. *)
Theorem getCpuUsage_one_entry_per_core (cpuInfo : list CpuInfo) (c : Cache) :
  length (getCpuUsage cpuInfo c).1 = length cpuInfo
  ∧ ∀ i entry, (getCpuUsage cpuInfo c).1 !! i = Some entry → CpuUsage.core entry = i.
Proof.
  rewrite getCpuUsage_usage. split; [by rewrite length_imap |].
  intros i entry. rewrite list_lookup_imap.
  destruct (cpuInfo !! i) as [cpu|]; [| done]. simpl.
  intros [= <-]. apply core_usage_core.
Qed.

(** X2: the previous reading that a sample compares a core with is the
    reading of that core in the sample before, whatever the cache held
    earlier; for a core that the sample before did not list, it is the last
    reading ever stored for that index (or none). *)
Theorem getCpuUsage_consecutive (before now : list CpuInfo) (c : Cache)
    (i : nat) (cpu : CpuInfo) :
  now !! i = Some cpu →
  (getCpuUsage now (getCpuUsage before c).2).1 !! i =
    Some (core_usage
            match before !! i with
            | Some earlier => Some (times earlier)
            | None => c !! i
            end i cpu).
Proof.
  intros Hnow. rewrite (getCpuUsage_lookup _ _ _ _ Hnow), getCpuUsage_cache.
  case_decide as Hlt.
  - destruct (lookup_lt_is_Some_2 before i Hlt) as [earlier ->]. done.
  - rewrite (lookup_ge_None_2 before i) by lia. done.
Qed.

(** The second of two samples of the example is the delta against the
    first, and a core that only the second sample lists is compared with
    what the cache held. *)
Lemma getCpuUsage_consecutive_witness :
  (getCpuUsage [second_reading] (getCpuUsage [first_reading] ∅).2).1 !! 0%nat =
    Some (core_usage (Some (times first_reading)) 0 second_reading)
  ∧ (getCpuUsage [first_reading; second_reading]
       (getCpuUsage [first_reading] {[ 1%nat := times zero_reading ]}).2).1 !! 1%nat =
    Some (core_usage (Some (times zero_reading)) 1 second_reading).
Proof.
  split.
  - by apply (getCpuUsage_consecutive [first_reading] [second_reading] ∅ 0).
  - rewrite (getCpuUsage_consecutive [first_reading] [first_reading; second_reading]
               {[ 1%nat := times zero_reading ]} 1 second_reading) by reflexivity.
    by vm_compute.
Defined.

(** X3: a sample overwrites what the sample before stored: when the current
    reading lists at least as many cores, the cache it leaves is the one it
    would leave had the sample before not happened. In particular sampling
    the same reading twice leaves the cache of the first. *)
Theorem getCpuUsage_cache_last_wins (before now : list CpuInfo) (c : Cache) :
  (length before ≤ length now)%nat →
  (getCpuUsage now (getCpuUsage before c).2).2 = (getCpuUsage now c).2.
Proof.
  intros Hlen. apply map_eq. intros i. rewrite !getCpuUsage_cache.
  case_decide as Hnow; [done |]. rewrite decide_False by lia. done.
Qed.

Lemma getCpuUsage_cache_last_wins_witness :
  (getCpuUsage [second_reading] (getCpuUsage [first_reading] ∅).2).2 =
    (getCpuUsage [second_reading] ∅).2
  ∧ (getCpuUsage [first_reading] (getCpuUsage [first_reading] ∅).2).2 =
    (getCpuUsage [first_reading] ∅).2.
Proof.
  split.
  - apply (getCpuUsage_cache_last_wins [first_reading] [second_reading] ∅). simpl. lia.
  - apply (getCpuUsage_cache_last_wins [first_reading] [first_reading] ∅). simpl. lia.
Defined.

(** X4: after a sample the cache holds exactly the indices it held before
    and those of the cores just read. *)
Theorem getCpuUsage_cache_dom (cpuInfo : list CpuInfo) (c : Cache) :
  dom (getCpuUsage cpuInfo c).2 = dom c ∪ set_seq 0 (length cpuInfo).
Proof.
  apply set_eq. intros i.
  rewrite elem_of_union, elem_of_set_seq, !elem_of_dom, getCpuUsage_cache.
  case_decide as Hlt.
  - destruct (lookup_lt_is_Some_2 cpuInfo i Hlt) as [cpu ->]. simpl.
    split; [intros _; right; lia | by eauto].
  - split; [by left | intros [? | ?]; [done | lia]].
Qed.

(** ** Words and rows *)

Section Words.
Implicit Types (s t : string) (c : ascii) (ts : list string).

Lemma pieces_no_space s : Forall (λ p, has_space p = false) (pieces s).
Proof.
  induction s as [|c s IH]; simpl; [by repeat constructor |].
  destruct (is_space c) eqn:Hc; [by constructor |].
  destruct (pieces s) as [|p r]; [by repeat constructor; simpl; rewrite Hc |].
  inversion IH as [|? ? Hp Hr]; subst. constructor; [| done]. simpl. by rewrite Hc.
Qed.

(** Every token is a word. *)
Lemma tokens_words s : Forall (λ t, is_word t = true) (tokens s).
Proof.
  unfold tokens. pose proof (pieces_no_space s) as Hp.
  induction Hp as [|p r Hp _ IH]; simpl; [done |].
  destruct (nonempty p) eqn:Hne; [| done].
  constructor; [| done]. unfold is_word. by rewrite Hne, Hp.
Qed.

Lemma pieces_word t : has_space t = false → pieces t = [t].
Proof.
  induction t as [|c t IH]; [done |]. simpl.
  intros [Hc Ht]%orb_false_elim. by rewrite Hc, (IH Ht).
Qed.

Lemma pieces_app_space t c s :
  has_space t = false → is_space c = true →
  pieces (t ++ String c s)%string = t :: pieces s.
Proof.
  intros Ht Hc. induction t as [|a t IH]; simpl; [by rewrite Hc |].
  simpl in Ht. apply orb_false_elim in Ht as [Ha Ht]. by rewrite Ha, (IH Ht).
Qed.

(** Tokens joined by single spaces are read back as they were. *)
Lemma tokens_join ts :
  Forall (λ t, is_word t = true) ts → tokens (join " " ts) = ts.
Proof.
  induction 1 as [|t ts Ht Hts IH]; [done |].
  unfold is_word in Ht. apply andb_prop in Ht as [Hne Hsp].
  apply negb_true_iff in Hsp.
  destruct ts as [|t' ts].
  - simpl. unfold tokens. by rewrite (pieces_word _ Hsp); simpl; rewrite Hne.
  - change (join " " (t :: t' :: ts)) with (t ++ String " " (join " " (t' :: ts)))%string.
    unfold tokens. rewrite (pieces_app_space t " "%char _ Hsp eq_refl). simpl.
    rewrite Hne. f_equal. exact IH.
Qed.

Lemma substring_0_length n s : (String.length (substring 0 n s) ≤ n)%nat.
Proof.
  revert s. induction n as [|n IH]; intros [|c s]; simpl; try lia.
  specialize (IH s). lia.
Qed.

Lemma substring_0_short n s : (String.length s ≤ n)%nat → substring 0 n s = s.
Proof.
  revert s. induction n as [|n IH]; intros [|c s]; simpl; try done; try lia.
  intros Hlen. rewrite IH; [done | lia].
Qed.

Lemma substring_0_nonempty n s :
  nonempty s = true → nonempty (substring 0 (S n) s) = true.
Proof. by destruct s. Qed.

Lemma join_nonempty t ts : nonempty t = true → nonempty (join " " (t :: ts)) = true.
Proof. destruct ts, t; done. Qed.

End Words.

Section RowFields.
Context `{Runtime}.

Lemma words_lookup_total (parts : list string) (k : nat) :
  Forall (λ t, is_word t = true) parts →
  (k < length parts)%nat →
  is_word (parts !!! k) = true.
Proof.
  intros Hw Hk. apply (Forall_lookup_1 _ _ k (parts !!! k) Hw).
  by apply list_lookup_lookup_total_lt.
Qed.

Lemma command_length (parts : list string) :
  (String.length (ProcessInfo.command (process_of parts)) ≤ 80)%nat.
Proof. apply substring_0_length. Qed.

Lemma command_nonempty (parts : list string) :
  Forall (λ t, is_word t = true) parts →
  (11 ≤ length parts)%nat →
  (1 ≤ String.length (ProcessInfo.command (process_of parts)))%nat.
Proof.
  intros Hw Hlen. simpl.
  destruct (drop 10 parts) as [|t ts] eqn:Hd.
  { apply (f_equal length) in Hd. rewrite length_drop in Hd. simpl in Hd. lia. }
  assert (Ht : is_word t = true).
  { apply (Forall_drop _ 10) in Hw. rewrite Hd in Hw. by inversion Hw. }
  apply andb_prop in Ht as [Hne _].
  pose proof (substring_0_nonempty 79 _ (join_nonempty t ts Hne)) as Hs.
  destruct (substring 0 80 (join " " (t :: ts))); [done | simpl; lia].
Qed.

End RowFields.

(** X5: in every entry that [getProcesses] returns, [user], [tty], [stat],
    [start] and [time] are words (not empty, no white space in them), and
    [command] has at least 1 and at most 80 characters. *)
Theorem getProcesses_fields_are_words `{Runtime} (h : Host) (stdout : string) :
  exec h (ps_command (platform h)) = Returned stdout →
  ∃ processes,
    getProcesses h = Returned processes
    ∧ Forall (λ p,
        is_word (ProcessInfo.user p) = true
        ∧ is_word (ProcessInfo.tty p) = true
        ∧ is_word (ProcessInfo.stat p) = true
        ∧ is_word (ProcessInfo.start p) = true
        ∧ is_word (ProcessInfo.time p) = true
        ∧ (1 ≤ String.length (ProcessInfo.command p) ≤ 80)%nat) processes.
Proof.
  intros Hexec. rewrite (getProcesses_rows _ _ Hexec). eexists. split; [done |].
  unfold entries. apply Forall_fmap, Forall_forall. intros row Hrow.
  apply list_elem_of_In, List.filter_In in Hrow as [_ Hwf].
  unfold well_formed in Hwf. apply Nat.leb_le in Hwf.
  pose proof (tokens_words row) as Hw. simpl.
  repeat split; try (apply words_lookup_total; [done | lia]).
  - by apply command_nonempty.
  - apply substring_0_length.
Qed.

Lemma getProcesses_fields_are_words_witness :
  ∃ processes,
    @getProcesses ExampleRuntime.runtime linux_host = Returned processes
    ∧ Forall (λ p,
        is_word (ProcessInfo.user p) = true
        ∧ is_word (ProcessInfo.tty p) = true
        ∧ is_word (ProcessInfo.stat p) = true
        ∧ is_word (ProcessInfo.start p) = true
        ∧ is_word (ProcessInfo.time p) = true
        ∧ (1 ≤ String.length (ProcessInfo.command p) ≤ 80)%nat) processes.
Proof. apply (getProcesses_fields_are_words linux_host ps_output). reflexivity. Defined.

(** X6: the command of an entry keeps the tokens of the row from the 11th
    on: when these, joined by single spaces, fit in 80 characters, cutting
    the command at white space gives them back, however much white space
    the row had between them. *)
Theorem command_keeps_tokens `{Runtime} (row : string) :
  (String.length (join " " (drop 10 (tokens row))) ≤ 80)%nat →
  tokens (ProcessInfo.command (process_of (tokens row))) = drop 10 (tokens row).
Proof.
  intros Hlen. simpl. rewrite (substring_0_short _ _ Hlen).
  apply tokens_join, Forall_drop, tokens_words.
Qed.

Lemma command_keeps_tokens_witness :
  tokens (ProcessInfo.command
            (@process_of ExampleRuntime.runtime
               (tokens "root 1 0.0 0.1 168000 11264 ? Ss Oct01 0:03 /sbin/init    splash")))
  = ["/sbin/init"; "splash"].
Proof.
  rewrite (@command_keeps_tokens ExampleRuntime.runtime); [by vm_compute |].
  vm_compute. lia.
Defined.

(** ** The numbers read in the output of the memory commands *)

Section Numbers.
Implicit Types (s d pre post line : string).

Lemma match_digits_skip pre s :
  has_digit pre = false → match_digits (pre ++ s)%string = match_digits s.
Proof.
  induction pre as [|c pre IH]; [done |]. simpl.
  intros [Hc Hpre]%orb_false_elim. by rewrite Hc, (IH Hpre).
Qed.

Lemma takeDigits_run d post :
  all_digits d = true → starts_with_digit post = false →
  takeDigits (d ++ post)%string = d.
Proof.
  intros Hd Hpost. induction d as [|c d IH]; simpl.
  - destruct post as [|c post]; [done |]. simpl in *. by rewrite Hpost.
  - simpl in Hd. apply andb_prop in Hd as [Hc Hd]. by rewrite Hc, (IH Hd).
Qed.

Lemma match_digits_none s : has_digit s = false → match_digits s = None.
Proof.
  induction s as [|c s IH]; [done |]. simpl.
  intros [Hc Hs]%orb_false_elim. by rewrite Hc, (IH Hs).
Qed.

End Numbers.

(** X7: the number read on a line of [vm_stat] or [/proc/meminfo] is the
    first run of digits of the line: what comes before it has no digit, and
    what follows it (a unit, the period that ends a line of [vm_stat]) is
    ignored; a line without a digit reads as 0. *)
Theorem line_number_first_run :
  (∀ pre d post : string,
     has_digit pre = false →
     nonempty d = true →
     all_digits d = true →
     starts_with_digit post = false →
     line_number (pre ++ d ++ post)%string = digits_value d)
  ∧ (∀ line : string, has_digit line = false → line_number line = 0).
Proof.
  split.
  - intros pre d post Hpre Hne Hd Hpost. unfold line_number.
    rewrite (match_digits_skip _ _ Hpre).
    destruct d as [|c d]; [done |].
    pose proof (takeDigits_run _ post Hd Hpost) as Hrun.
    simpl in Hd. apply andb_prop in Hd as [Hc _].
    change (String c d ++ post)%string with (String c (d ++ post)%string) in *.
    unfold match_digits. rewrite Hc. fold match_digits. by rewrite Hrun.
  - intros line Hline. unfold line_number. by rewrite (match_digits_none _ Hline).
Qed.

Lemma line_number_first_run_witness :
  line_number "Pages free:                               12345." = 12345
  ∧ line_number "MemAvailable:    8388608 kB" = 8388608
  ∧ line_number "Pages free:" = 0.
Proof.
  split; [| split].
  - apply (proj1 line_number_first_run
             "Pages free:                               " "12345" "."); reflexivity.
  - apply (proj1 line_number_first_run "MemAvailable:    " "8388608" " kB");
      reflexivity.
  - apply (proj2 line_number_first_run "Pages free:"). reflexivity.
Defined.

(** ** The paths of [getMemoryInfo] *)

Lemma for_meminfo_find (lines : list string) (memAvailable : Z) :
  for_meminfo lines memAvailable =
    match List.find (startsWith "MemAvailable:") lines with
    | Some line => line_number line * 1024
    | None => memAvailable
    end.
Proof.
  induction lines as [|line lines IH]; [done |]. simpl.
  by destruct (startsWith "MemAvailable:" line).
Qed.

(** X8: on Linux, when the command succeeds, only the first line that
    starts with [MemAvailable:] counts: if the number on it is positive,
    free memory is that number of kilobytes; if it is 0, or no line starts
    so, the result is the fallback on [freemem()], as if the command had
    failed. *)
Theorem getMemoryInfo_linux_first_line (h : Host) (stdout : string) :
  platform h = "linux" →
  exec h "cat /proc/meminfo" = Returned stdout →
  getMemoryInfo h =
    Returned (memory_info (totalmem h)
      match List.find (startsWith "MemAvailable:") (split newline stdout) with
      | Some line =>
          if 0 <? line_number line then line_number line * 1024 else freemem h
      | None => freemem h
      end).
Proof.
  intros Hos Hexec.
  assert (Hav : meminfo_available stdout =
    match List.find (startsWith "MemAvailable:") (split newline stdout) with
    | Some line => line_number line * 1024
    | None => 0
    end) by apply for_meminfo_find.
  destruct (List.find _ _) as [line|].
  - destruct (Z.ltb_spec 0 (line_number line)).
    + rewrite (getMemoryInfo_linux _ _ Hos Hexec), Hav; [done | lia].
    + rewrite (getMemoryInfo_linux_no_available _ _ Hos Hexec); [done | lia].
  - rewrite (getMemoryInfo_linux_no_available _ _ Hos Hexec); [done | lia].
Qed.

Lemma getMemoryInfo_linux_first_line_witness :
  getMemoryInfo linux_host =
    Returned (memory_info (16 * 1024 ^ 3) (8388608 * 1024))
  ∧ getMemoryInfo
      (host_of "linux" (λ _, Returned "MemFree: 1 kB")) =
    Returned (memory_info (16 * 1024 ^ 3) (4 * 1024 ^ 3)).
Proof.
  split.
  - by rewrite (getMemoryInfo_linux_first_line linux_host meminfo_output eq_refl eq_refl).
  - by rewrite (getMemoryInfo_linux_first_line
                  (host_of "linux" (λ _, Returned "MemFree: 1 kB")) "MemFree: 1 kB"
                  eq_refl eq_refl).
Defined.

Lemma for_pages_no_page_line (lines : list string) (p : PageCounts) :
  Forall (λ line, page_line line = false) lines → for_pages lines p = p.
Proof.
  intros Hlines. revert p.
  induction Hlines as [|line lines Hline _ IH]; intros p; [done |]. simpl.
  unfold page_line in Hline.
  apply orb_false_elim in Hline as [Hline Hs].
  apply orb_false_elim in Hline as [Hline Hp].
  apply orb_false_elim in Hline as [Hf Hi].
  unfold count_pages. rewrite Hf, Hi, Hp, Hs. apply IH.
Qed.

(** X9: on macOS an output of [vm_stat] that has none of the four lines the
    loop reads is not taken for a failure: whatever the page size,
    [getMemoryInfo] returns [free = 0] and [used = total], and does not fall
    back on [freemem()]. *)
Theorem getMemoryInfo_darwin_no_page_line (h : Host) (stdout : string) :
  platform h = "darwin" →
  exec h "vm_stat" = Returned stdout →
  Forall (λ line, page_line line = false) (split newline stdout) →
  ∃ info,
    getMemoryInfo h = Returned info
    ∧ MemoryInfo.free info = 0
    ∧ MemoryInfo.used info = totalmem h
    ∧ MemoryInfo.total info = totalmem h.
Proof.
  intros Hos Hexec Hlines. rewrite (getMemoryInfo_darwin _ _ Hos Hexec).
  eexists. split; [done |]. unfold vm_stat_available.
  cbv zeta. rewrite (for_pages_no_page_line _ _ Hlines). simpl. repeat split. lia.
Qed.

Lemma getMemoryInfo_darwin_no_page_line_witness :
  ∃ info,
    getMemoryInfo
      (host_of "darwin"
         (λ _, Returned "Mach Virtual Memory Statistics: (page size of 4096 bytes)"))
      = Returned info
    ∧ MemoryInfo.free info = 0
    ∧ MemoryInfo.used info = 16 * 1024 ^ 3
    ∧ MemoryInfo.total info = 16 * 1024 ^ 3.
Proof.
  apply (getMemoryInfo_darwin_no_page_line
           (host_of "darwin"
              (λ _, Returned "Mach Virtual Memory Statistics: (page size of 4096 bytes)"))
           "Mach Virtual Memory Statistics: (page size of 4096 bytes)");
    [reflexivity | reflexivity |].
  repeat constructor.
Defined.

(** ** [formatBytes] *)

Lemma add_nan (x : float) : PrimFloat.add x nan = nan.
Proof.
  apply Prim2SF_inj. rewrite add_spec.
  change (Prim2SF nan) with S754_nan.
  unfold SF64add, SFadd. by destruct (Prim2SF x).
Qed.

(** X10: whatever the runtime computes, [formatBytes] returns either a
    string that ends with one of the unit letters [B], [K], [M], [G], [T],
    or the number [NaN] (where the index of the unit is outside the table);
    it returns no other number. *)
Theorem formatBytes_string_or_NaN `{Runtime} (bytes : float) :
  match formatBytes bytes with
  | VString s => ∃ text unit, s = (text ++ unit)%string ∧ unit ∈ ["B"; "K"; "M"; "G"; "T"]
  | VNumber x => x = nan
  end.
Proof.
  unfold formatBytes. destruct (PrimFloat.eqb bytes 0).
  { exists "0 ", "B". split; [done | set_solver]. }
  cbv zeta. unfold sizes_at.
  repeat (match goal with
          | |- context [PrimFloat.eqb ?a ?b] => destruct (PrimFloat.eqb a b)
          end; [eexists _, _; split; [reflexivity | set_solver] |]).
  apply add_nan.
Qed.

(** ** The aggregate *)

(** X11: the aggregate counts the cores of the call of [cpus()] that
    [getSystemMetrics] makes itself, while [cpuUsage] has one entry for every
    core of the later call inside [getCpuUsage]; and [cpuModel] is never the
    empty string: without a core, or with a first core whose model is empty,
    it is ["Unknown"]. *)
Theorem getSystemMetrics_cpu_fields `{Runtime} (h : Host) (c : Cache) :
  ∃ m c',
    getSystemMetrics h c = Returned (m, c')
    ∧ cpuCount m = length (cpus h)
    ∧ length (cpuUsage m) = length (cpus_again h)
    ∧ cpuModel m ≠ ""
    ∧ (cpuModel m = "Unknown" ∨ ∃ cpu, head (cpus h) = Some cpu ∧ cpuModel m = model cpu).
Proof.
  unfold getSystemMetrics.
  destruct (getMemoryInfo_returns h) as [f ->].
  destruct (getProcesses_returns h) as [ps ->]. unfold bind.
  eexists _, _. split; [reflexivity |]. cbn [cpuCount cpuUsage cpuModel].
  split; [done |]. split.
  { by rewrite getCpuUsage_usage, length_imap. }
  unfold model_or_unknown. destruct (cpus h) as [|cpu rest]; [by auto |].
  destruct (String.eqb_spec (model cpu) ""); [by auto |].
  split; [done |]. right. by exists cpu.
Qed.

(** X12: two polls in a row: the second reports every core against the
    reading that the first poll took of it, through the cache that the first
    poll left; so a host whose counters did not move between the polls is
    reported idle. *)
Theorem getSystemMetrics_polls `{Runtime} (h1 h2 : Host) (c : Cache)
    (i : nat) (cpu1 cpu2 : CpuInfo) :
  cpus_again h1 !! i = Some cpu1 →
  cpus_again h2 !! i = Some cpu2 →
  ∃ m1 c1 m2 c2,
    getSystemMetrics h1 c = Returned (m1, c1)
    ∧ getSystemMetrics h2 c1 = Returned (m2, c2)
    ∧ cpuUsage m2 !! i = Some (core_usage (Some (times cpu1)) i cpu2)
    ∧ (times cpu2 = times cpu1 →
       cpuUsage m2 !! i =
         Some {| CpuUsage.core := i; CpuUsage.usage := 0; CpuUsage.user := 0;
                 CpuUsage.system := 0; CpuUsage.idle := 100 |}).
Proof.
  intros H1 H2.
  destruct (getSystemMetrics_returns h1 c) as (m1 & _ & Hm1 & _).
  destruct (getSystemMetrics_returns h2 (getCpuUsage (cpus_again h1) c).2)
    as (m2 & _ & Hm2 & _ & _ & Hu & _).
  eexists m1, _, m2, _. split; [exact Hm1 |]. split; [exact Hm2 |].
  assert (Hprev : (getCpuUsage (cpus_again h1) c).2 !! i = Some (times cpu1)).
  { rewrite getCpuUsage_cache, decide_True by (by eapply lookup_lt_Some).
    by rewrite H1. }
  rewrite Hu, (getCpuUsage_lookup _ _ _ _ H2), Hprev.
  split; [done |]. intros Heq. unfold core_usage.
  by rewrite Heq, Z.sub_diag.
Qed.

Lemma getSystemMetrics_polls_witness :
  ∃ m1 c1 m2 c2,
    @getSystemMetrics ExampleRuntime.runtime linux_host ∅ = Returned (m1, c1)
    ∧ @getSystemMetrics ExampleRuntime.runtime linux_host c1 = Returned (m2, c2)
    ∧ cpuUsage m2 !! 0%nat =
        Some {| CpuUsage.core := 0; CpuUsage.usage := 0; CpuUsage.user := 0;
                CpuUsage.system := 0; CpuUsage.idle := 100 |}.
Proof.
  destruct (@getSystemMetrics_polls ExampleRuntime.runtime linux_host linux_host ∅
              0 second_reading second_reading eq_refl eq_refl)
    as (m1 & c1 & m2 & c2 & H1 & H2 & _ & Hidle).
  exists m1, c1, m2, c2. split; [exact H1 |]. split; [exact H2 |]. by apply Hidle.
Defined.

(** ** The request handler *)

Section Handler.
Context `{Runtime} `{Server.Json}.

(** The four branches of the handler. *)
Lemma fetch_cases (req : Server.Request) (h : Host) (c : Cache) :
  (Server.method req = "OPTIONS"
   ∧ Server.fetch req h c = Returned (Server.mkResponse None 200 Server.corsHeaders, c))
  ∨ (Server.method req ≠ "OPTIONS" ∧ Server.pathname req = "/api/metrics"
     ∧ ∃ m, getSystemMetrics h c = Returned (m, (getCpuUsage (cpus_again h) c).2)
         ∧ Server.fetch req h c =
             Returned (Server.mkResponse (Some (Server.JSON_stringify m)) 200
                         (("Content-Type", "application/json") :: Server.corsHeaders),
                       (getCpuUsage (cpus_again h) c).2))
  ∨ (Server.method req ≠ "OPTIONS" ∧ Server.pathname req = "/api/health"
     ∧ Server.fetch req h c =
         Returned (Server.mkResponse (Some Server.health_body) 200
                     (("Content-Type", "application/json") :: Server.corsHeaders), c))
  ∨ (Server.method req ≠ "OPTIONS" ∧ Server.pathname req ≠ "/api/metrics"
     ∧ Server.pathname req ≠ "/api/health"
     ∧ Server.fetch req h c =
         Returned (Server.mkResponse (Some "Not Found") 404 Server.corsHeaders, c)).
Proof.
  unfold Server.fetch.
  destruct (String.eqb_spec (Server.method req) "OPTIONS") as [Hm | Hm]; [by left |].
  right.
  destruct (String.eqb_spec (Server.pathname req) "/api/metrics") as [Hp | Hp].
  { left. split; [done |]. split; [done |].
    destruct (getSystemMetrics_returns h c) as (m & _ & Hret & _).
    exists m. by rewrite Hret. }
  right.
  destruct (String.eqb_spec (Server.pathname req) "/api/health") as [Hh | Hh];
    [by left | by right].
Qed.

End Handler.

(** X13: the handler answers every request and never throws; every
    response carries the three CORS headers; the status is 404 exactly when
    the method is not [OPTIONS] and the path is neither [/api/metrics] nor
    [/api/health], and 200 otherwise. *)
Theorem fetch_always_answers `{Runtime} `{Server.Json}
    (req : Server.Request) (h : Host) (c : Cache) :
  ∃ resp c',
    Server.fetch req h c = Returned (resp, c')
    ∧ Forall (λ header, header ∈ Server.headers resp) Server.corsHeaders
    ∧ (Server.status resp = 200 ∨ Server.status resp = 404)
    ∧ (Server.status resp = 404 ↔
         Server.method req ≠ "OPTIONS"
         ∧ Server.pathname req ≠ "/api/metrics"
         ∧ Server.pathname req ≠ "/api/health").
Proof.
  destruct (fetch_cases req h c)
    as [[Hm ->] | [(Hm & Hp & m & _ & ->) | [(Hm & Hp & ->) | (Hm & Hp & Hh & ->)]]];
    eexists _, _; (split; [reflexivity |]); simpl;
    (split; [unfold Server.corsHeaders; repeat constructor; set_solver |]);
    (split; [auto |]).
  - split; [done | by intros (? & _)].
  - split; [done | by intros (_ & ? & _)].
  - split; [done | by intros (_ & _ & ?)].
  - done.
Qed.

(** X14: only a request for [/api/metrics] whose method is not [OPTIONS]
    samples the CPU: it leaves the cache of [getCpuUsage], whatever its
    method ([GET] or another); every other request leaves the cache as it
    was, and an [OPTIONS] request has no body, also for [/api/metrics]. *)
Theorem fetch_samples_on_metrics_only `{Runtime} `{Server.Json}
    (req : Server.Request) (h : Host) (c : Cache) :
  ∃ resp c',
    Server.fetch req h c = Returned (resp, c')
    ∧ c' = (if decide (Server.method req ≠ "OPTIONS"
                       ∧ Server.pathname req = "/api/metrics")
            then (getCpuUsage (cpus_again h) c).2 else c)
    ∧ (Server.method req = "OPTIONS" → Server.body resp = None)
    ∧ (Server.method req ≠ "OPTIONS" → Server.pathname req = "/api/metrics" →
       ∃ m, getSystemMetrics h c = Returned (m, c')
         ∧ Server.body resp = Some (Server.JSON_stringify m)).
Proof.
  destruct (fetch_cases req h c)
    as [[Hm ->] | [(Hm & Hp & m & Hret & ->) | [(Hm & Hp & ->) | (Hm & Hp & Hh & ->)]]];
    eexists _, _; (split; [reflexivity |]).
  - rewrite decide_False by (by intros [? _]). repeat split; done.
  - rewrite decide_True by done. repeat split; [done |]. intros _ _. by exists m.
  - rewrite decide_False by (intros [_ Heq]; by rewrite Heq in Hp).
    repeat split; [done |]. intros _ Heq. by rewrite Heq in Hp.
  - rewrite decide_False by (by intros [_ ?]). repeat split; done.
Qed.

(** ** The client *)

Section History.
Context {A : Type}.
Implicit Types (points prev : list A) (p : A).

Lemma update_history_last points p :
  update_history (drop (length points - HISTORY_LENGTH) points) p =
    drop (length (points ++ [p]) - HISTORY_LENGTH) (points ++ [p]).
Proof.
  unfold update_history, HISTORY_LENGTH. cbv zeta.
  rewrite !length_app, length_drop. simpl.
  destruct (decide (length points < 60)%nat) as [Hlt | Hge].
  - replace (length points - 60)%nat with 0%nat by lia.
    replace (length points + 1 - 60)%nat with 0%nat by lia.
    rewrite Nat.sub_0_r, !drop_0.
    destruct (Nat.ltb_spec 60 (length points + 1)); [lia | done].
  - destruct (Nat.ltb_spec 60 (length points - (length points - 60) + 1)); [| lia].
    rewrite drop_app_le by (rewrite length_drop; lia).
    rewrite drop_drop, (drop_app_le points) by lia.
    f_equal. f_equal. lia.
Qed.

Lemma history_of_last points :
  history_of points = drop (length points - HISTORY_LENGTH) points.
Proof.
  unfold history_of.
  induction points as [|p points IH] using rev_ind; [done |].
  rewrite foldl_app. simpl. rewrite IH. apply update_history_last.
Qed.

End History.

(** X15: the history of the graphs is the last 60 points: after any number
    of updates it holds the points received, oldest first, without the ones
    that came before the last 60; so it never has more than 60 points, it
    loses nothing while fewer than 60 have arrived, and the newest point is
    its last. *)
Theorem history_keeps_last_60 {A : Type} (points : list A) :
  history_of points = drop (length points - 60) points
  ∧ length (history_of points) = (length points `min` 60)%nat
  ∧ ((length points ≤ 60)%nat → history_of points = points)
  ∧ last (history_of points) = last points.
Proof.
  rewrite history_of_last. unfold HISTORY_LENGTH.
  split; [done |]. split; [rewrite length_drop; lia |]. split.
  - intros Hle. by replace (length points - 60)%nat with 0%nat by lia.
  - destruct points as [|p points _] using rev_ind; [done |].
    rewrite last_snoc, length_app. simpl.
    destruct (decide (length points < 60)%nat).
    + replace (length points + 1 - 60)%nat with 0%nat by lia. apply last_snoc.
    + rewrite drop_app_le by lia. apply last_snoc.
Qed.

(** ** The sort column of the process table *)

Section Sort.
Import ProcessTable.

Lemma handleSort_field field st : sortField (handleSort field st) = field.
Proof. unfold handleSort. by case_decide. Qed.

Lemma clicks_snoc fields field st :
  clicks (fields ++ [field]) st = handleSort field (clicks fields st).
Proof. unfold clicks. by rewrite foldl_app. Qed.

End Sort.

(** X16: after any run of clicks the sort column is the one clicked last;
    [k + 1] clicks in a row on a column that was not the sort column leave
    the direction descending when their number is odd and ascending when it
    is even, so two more clicks on the sort column change nothing. *)
Theorem handleSort_clicks :
  (∀ fields field st,
     ProcessTable.sortField (ProcessTable.clicks (fields ++ [field]) st) = field)
  ∧ (∀ field st k,
       ProcessTable.sortField st ≠ field →
       ProcessTable.clicks (replicate (S k) field) st =
         ProcessTable.mkSort field
           (if Nat.even k then ProcessTable.desc else ProcessTable.asc))
  ∧ (∀ field st,
       ProcessTable.sortField st = field →
       ProcessTable.clicks [field; field] st = st).
Proof.
  split; [| split].
  - intros fields field st. rewrite clicks_snoc. apply handleSort_field.
  - intros field st k Hne. induction k as [|k IH].
    + simpl. unfold ProcessTable.handleSort. by rewrite decide_False.
    + rewrite replicate_S_end, clicks_snoc, IH.
      rewrite Nat.even_succ, <- Nat.negb_even.
      unfold ProcessTable.handleSort.
      cbn [ProcessTable.sortField ProcessTable.sortDirection].
      rewrite decide_True by done. by destruct (Nat.even k).
  - intros field [f d] Hf. simpl in Hf. subst f.
    by destruct field, d.
Qed.

Lemma handleSort_clicks_witness :
  ProcessTable.clicks (replicate 3 ProcessTable.mem) ProcessTable.initial =
    ProcessTable.mkSort ProcessTable.mem ProcessTable.desc
  ∧ ProcessTable.clicks [ProcessTable.cpu; ProcessTable.cpu] ProcessTable.initial =
    ProcessTable.initial.
Proof.
  split.
  - by apply (proj1 (proj2 handleSort_clicks) ProcessTable.mem ProcessTable.initial 2%nat).
  - by apply (proj2 (proj2 handleSort_clicks) ProcessTable.cpu ProcessTable.initial).
Defined.

(** ** [Header]: the uptime *)

(** X17: for an uptime of [d] days, [h] hours, [m] minutes and [r] seconds,
    [formatUptime] gives the days if there are any, the hours of the day if
    there are any, and always the minutes, separated by one space; the
    seconds are dropped. *)
Theorem formatUptime_parts (d h m r : Z) :
  0 ≤ d → 0 ≤ h < 24 → 0 ≤ m < 60 → 0 ≤ r < 60 →
  formatUptime (86400 * d + 3600 * h + 60 * m + r)
  = join " "
      ((if 0 <? d then [(decimal d ++ "d")%string] else [])
       ++ (if 0 <? h then [(decimal h ++ "h")%string] else [])
       ++ [(decimal m ++ "m")%string]).
Proof.
  intros Hd Hh Hm Hr. unfold formatUptime.
  set (s := 86400 * d + 3600 * h + 60 * m + r).
  assert (Hdays : s / 86400 = d).
  { symmetry. apply (Z.div_unique s 86400 d (3600 * h + 60 * m + r)); lia. }
  assert (Hrem1 : Z.rem s 86400 = 3600 * h + 60 * m + r).
  { rewrite Z.rem_mod_nonneg by lia. symmetry.
    apply (Z.mod_unique s 86400 d); lia. }
  assert (Hrem2 : Z.rem s 3600 = 60 * m + r).
  { rewrite Z.rem_mod_nonneg by lia. symmetry.
    apply (Z.mod_unique s 3600 (24 * d + h)); lia. }
  assert (Hhours : Z.rem s 86400 / 3600 = h).
  { rewrite Hrem1. symmetry. apply (Z.div_unique _ 3600 h (60 * m + r)); lia. }
  assert (Hminutes : Z.rem s 3600 / 60 = m).
  { rewrite Hrem2. symmetry. apply (Z.div_unique _ 60 m r); lia. }
  cbv zeta. rewrite Hdays, Hhours, Hminutes.
  by destruct (0 <? d), (0 <? h).
Qed.

Lemma formatUptime_parts_witness :
  formatUptime (86400 * 1 + 3600 * 0 + 60 * 5 + 59) = "1d 5m"%string.
Proof.
  rewrite (formatUptime_parts 1 0 5 59) by lia. reflexivity.
Defined.

(** ** [useSystemMetrics] and [App] *)

Section Screens.
Context {Data : Type} (truthy : Data → bool).
Import MetricsHook.

Lemma fetchMetrics_loading (st : HookState Data) (ending : FetchEnd Data) :
  loading (fetchMetrics st ending) = false.
Proof. by destruct ending. Qed.

Lemma after_snoc (endings : list (FetchEnd Data)) (ending : FetchEnd Data) (st : HookState Data) :
  after (endings ++ [ending]) st = fetchMetrics (after endings st) ending.
Proof. unfold after. by rewrite foldl_app. Qed.

Lemma after_loading (endings : list (FetchEnd Data)) (st : HookState Data) :
  endings ≠ [] → loading (after endings st) = false.
Proof.
  destruct endings as [|e es] using rev_ind; [done|]. intros _.
  rewrite after_snoc. apply fetchMetrics_loading.
Qed.

Lemma App_dashboard (st : HookState Data) :
  no_metrics truthy st = false ↔ ∃ data r, App truthy st = Dashboard data r.
Proof.
  unfold App. split.
  - intros Hm. rewrite Hm, !andb_false_r.
    unfold no_metrics in Hm. destruct (metrics st) as [data|]; [|done].
    by exists data, (has_error st).
  - intros (data & r & Heq).
    destruct (no_metrics truthy st); [|done].
    rewrite !andb_true_r in Heq.
    by destruct (loading st), (has_error st).
Qed.

Lemma fetchMetrics_keeps_metrics (st : HookState Data) (ending : FetchEnd Data) :
  loads_truthy truthy ending →
  no_metrics truthy st = false →
  no_metrics truthy (fetchMetrics st ending) = false.
Proof.
  unfold no_metrics. destruct ending; cbn; try done.
  by intros ->.
Qed.

(** X18: the loading screen is what [App] shows before the first call of
    [fetchMetrics] has ended, and it is never shown again after one has. *)
Theorem App_loading_screen_only_at_start :
  App truthy initial = LoadingScreen
  ∧ ∀ (st : HookState Data) (endings : list (FetchEnd Data)),
      endings ≠ [] → App truthy (after endings st) ≠ LoadingScreen.
Proof.
  split; [done|]. intros st endings Hne. unfold App.
  rewrite (after_loading _ _ Hne). cbn [andb].
  destruct (has_error _ && no_metrics _ _); [done|].
  destruct (no_metrics _ _); [done|].
  by destruct (metrics _).
Qed.

(** X19: once the dashboard is shown it stays, whatever the later calls end
    in, as long as the server never answers with a falsy value: a call that
    fails keeps the data of before, and shows the reconnecting mark when its
    message is not empty; a call that loads data shows them without the
    mark. *)
Theorem App_dashboard_stays (st : HookState Data) (data : Data) (r : bool)
    (endings : list (FetchEnd Data)) :
  App truthy st = Dashboard data r →
  Forall (loads_truthy truthy) endings →
  (∃ data' r', App truthy (after endings st) = Dashboard data' r')
  ∧ (∀ err, App truthy (fetchMetrics st (FetchRejected err))
            = Dashboard data (nonempty (message_of err)))
  ∧ (∀ err, App truthy (fetchMetrics st (JsonRejected err))
            = Dashboard data (nonempty (message_of err)))
  ∧ (∀ status, App truthy (fetchMetrics st (NotOk status)) = Dashboard data true)
  ∧ (∀ data', truthy data' = true →
       App truthy (fetchMetrics st (Loaded data')) = Dashboard data' false).
Proof.
  intros Hshown Hall.
  assert (Hm : no_metrics truthy st = false).
  { apply App_dashboard. by exists data, r. }
  assert (Hdata : metrics st = Some data).
  { unfold App in Hshown. rewrite Hm, !andb_false_r in Hshown.
    destruct (metrics st); [|done]. by injection Hshown as -> _. }
  split; [|split; [|split; [|split]]].
  - apply App_dashboard. unfold after.
    clear Hshown Hdata. revert st Hm.
    induction Hall as [|e es He _ IH]; intros st Hm; [done|].
    cbn. apply IH. by apply fetchMetrics_keeps_metrics.
  - intros err. unfold App, no_metrics in *. cbn. rewrite Hdata in *.
    by rewrite Hm, !andb_false_r.
  - intros err. unfold App, no_metrics in *. cbn. rewrite Hdata in *.
    by rewrite Hm, !andb_false_r.
  - intros status. unfold App, no_metrics in *. cbn. rewrite Hdata in *.
    by rewrite Hm, !andb_false_r.
  - intros data' Ht. unfold App, no_metrics. cbn. by rewrite Ht.
Qed.

End Screens.

Lemma App_loading_screen_only_at_start_witness :
  MetricsHook.App (λ _ : nat, true)
    (MetricsHook.after [MetricsHook.NotOk 503] MetricsHook.initial)
  ≠ MetricsHook.LoadingScreen.
Proof.
  apply (App_loading_screen_only_at_start (λ _ : nat, true)). discriminate.
Defined.

Lemma App_dashboard_stays_witness :
  ∃ data' r',
    MetricsHook.App (λ _ : nat, true)
      (MetricsHook.after
         [MetricsHook.NotOk 500; MetricsHook.Loaded 8%nat;
          MetricsHook.FetchRejected MetricsHook.OtherValue]
         (MetricsHook.mkHook (Some 7%nat) None false))
    = MetricsHook.Dashboard data' r'.
Proof.
  apply (App_dashboard_stays (λ _ : nat, true)
           (MetricsHook.mkHook (Some 7%nat) None false) 7%nat false
           [MetricsHook.NotOk 500; MetricsHook.Loaded 8%nat;
            MetricsHook.FetchRejected MetricsHook.OtherValue]).
  - reflexivity.
  - repeat constructor.
Defined.

(** X20: before any data have arrived, a failed call gives the error screen
    with the message of the failure; if that message is the empty string,
    nothing is rendered at all. *)
Theorem App_first_failure {Data : Type} (truthy : Data → bool)
    (err : MetricsHook.Raised) :
  MetricsHook.App truthy
    (MetricsHook.fetchMetrics MetricsHook.initial (MetricsHook.FetchRejected err))
  = if nonempty (MetricsHook.message_of err)
    then MetricsHook.ErrorScreen (MetricsHook.message_of err)
    else MetricsHook.Blank.
Proof.
  unfold MetricsHook.App, MetricsHook.has_error, MetricsHook.no_metrics. cbn.
  by destruct (nonempty _).
Qed.

(** ** [CpuBar] and [MemoryBar] *)

Section BarRange.

Lemma same_outcome_eq (a b : Outcome string) : same_outcome a b = true → a = b.
Proof.
  destruct a, b; cbn; try done; intros Heq; apply String.eqb_eq in Heq;
    by subst.
Qed.

Lemma forallb_range (P : Z → bool) (lo : Z) (len : nat) :
  forallb P (seqZ lo (Z.of_nat len)) = true →
  ∀ n, lo ≤ n < lo + Z.of_nat len → P n = true.
Proof.
  intros Hall n Hn. rewrite forallb_forall in Hall. apply Hall.
  apply list_elem_of_In, elem_of_seqZ. lia.
Qed.

End BarRange.

(** X21: for a whole usage between -1000 and 1000, the bar of [CpuBar] is
    drawn exactly for the usages from -2 to 102, with [(usage + 2) / 5] of its
    20 places filled, and the bar of [MemoryBar] exactly for the usages from
    -1 to 101, with [(3 * usage + 5) / 10] of its 30 places filled; for the
    other usages [repeat] throws a [RangeError]. For the usage [NaN] both
    bars are the empty string. *)
Theorem renderBar_whole_usage :
  (∀ n, -1000 ≤ n ≤ 1000 →
     Bars.CpuBar_renderBar (Z2Num n)
     = if (-2 <=? n) && (n <=? 102)
       then Returned (Bars.bar (Z.to_nat ((n + 2) / 5)) 20)
       else Thrown "RangeError")
  ∧ (∀ n, -1000 ≤ n ≤ 1000 →
     Bars.MemoryBar_renderBar (Z2Num n)
     = if (-1 <=? n) && (n <=? 101)
       then Returned (Bars.bar (Z.to_nat ((3 * n + 5) / 10)) 30)
       else Thrown "RangeError")
  ∧ Bars.CpuBar_renderBar nan = Returned ""%string
  ∧ Bars.MemoryBar_renderBar nan = Returned ""%string.
Proof.
  split; [|split; [|split]]; [| |by vm_compute..].
  - intros n Hn. apply same_outcome_eq.
    apply (forallb_range
             (λ n, same_outcome (Bars.CpuBar_renderBar (Z2Num n))
                     (if (-2 <=? n) && (n <=? 102)
                      then Returned (Bars.bar (Z.to_nat ((n + 2) / 5)) 20)
                      else Thrown "RangeError"))
             (-1000) 2001); [by vm_compute | lia].
  - intros n Hn. apply same_outcome_eq.
    apply (forallb_range
             (λ n, same_outcome (Bars.MemoryBar_renderBar (Z2Num n))
                     (if (-1 <=? n) && (n <=? 101)
                      then Returned (Bars.bar (Z.to_nat ((3 * n + 5) / 10)) 30)
                      else Thrown "RangeError"))
             (-1000) 2001); [by vm_compute | lia].
Qed.

Lemma renderBar_whole_usage_witness :
  Bars.CpuBar_renderBar (Z2Num 50) = Returned (Bars.bar 10 20).
Proof.
  rewrite (proj1 renderBar_whole_usage 50) by lia. reflexivity.
Defined.

(** ** The filters *)

Section Filters.

Lemma toLowerCase_nonempty (s : string) : nonempty (toLowerCase s) = nonempty s.
Proof. by destruct s. Qed.

Lemma lower_char_digit (c : ascii) : is_digit c = true → lower_char c = c.
Proof. by destruct c as [[] [] [] [] [] [] [] []]. Qed.

Lemma lower_char_is_digit (c : ascii) : is_digit (lower_char c) = is_digit c.
Proof. by destruct c as [[] [] [] [] [] [] [] []]. Qed.

(** Digits are not letters: lowering leaves them as they are. *)
Lemma toLowerCase_digits (d : string) : all_digits d = true → toLowerCase d = d.
Proof.
  induction d as [|c d IH]; [done |]. cbn. intros [Hc Hd]%andb_prop.
  by rewrite (lower_char_digit _ Hc), (IH Hd).
Qed.

(** Lowering neither makes nor breaks a run of digits. *)
Lemma prefix_digits_toLowerCase (d s : string) :
  all_digits d = true → String.prefix d (toLowerCase s) = String.prefix d s.
Proof.
  revert s. induction d as [|c d IH]; intros s Hd; [by destruct s |].
  cbn in Hd. apply andb_prop in Hd as [Hc Hd].
  destruct s as [|c' s]; [done |]. cbn.
  destruct (ascii_dec c c') as [<- | Hne].
  - rewrite (lower_char_digit _ Hc).
    destruct (ascii_dec c c); [by apply IH | done].
  - destruct (ascii_dec c (lower_char c')) as [Heq | _]; [| done].
    exfalso. apply Hne.
    assert (Hc' : is_digit c' = true).
    { by rewrite <- lower_char_is_digit, <- Heq. }
    by rewrite Heq, (lower_char_digit _ Hc').
Qed.

Lemma includes_digits_toLowerCase (d s : string) :
  all_digits d = true → includes d (toLowerCase s) = includes d s.
Proof.
  intros Hd. induction s as [|c s IH].
  - reflexivity.
  - change (toLowerCase (String c s))
      with (String (lower_char c) (toLowerCase s)).
    cbn [includes]. rewrite <- IH.
    by rewrite <- (prefix_digits_toLowerCase d (String c s) Hd).
Qed.

Lemma includes_empty (s : string) : includes EmptyString s = true.
Proof. by destruct s. Qed.

Lemma List_filter_sublist {A : Type} (f : A → bool) (l : list A) :
  sublist (List.filter f l) l.
Proof.
  induction l as [|x l IH]; [done|]. cbn.
  destruct (f x); by constructor.
Qed.

End Filters.

(** X22: the filter of the process table keeps the rows in their order, and
    with the empty filter it keeps every row. A filter made of digits only,
    as typed to look for a pid, is not changed by the lowering and is not
    touched by the lowering of the columns: a row is kept exactly when the
    digits occur, as typed, in its command, in its user or in the text of
    its pid. *)
Theorem filter_processes_keeps `{Runtime} (processes : list ProcessInfo.t)
    (filter : string) :
  sublist (filter_processes processes filter) processes
  ∧ filter_processes processes ""%string = processes
  ∧ (all_digits filter = true →
     ∀ p, p ∈ filter_processes processes filter ↔
          p ∈ processes
          ∧ (includes filter (ProcessInfo.command p) = true
             ∨ includes filter (ProcessInfo.user p) = true
             ∨ includes filter (Number_toString (ProcessInfo.pid p)) = true)).
Proof.
  split; [| split].
  - unfold filter_processes. destruct (nonempty filter); [| done].
    apply List_filter_sublist.
  - done.
  - intros Hd p. unfold filter_processes.
    destruct (nonempty filter) eqn:Hne.
    + rewrite (toLowerCase_digits _ Hd), list_elem_of_In, List.filter_In.
      rewrite !(includes_digits_toLowerCase _ _ Hd), !orb_true_iff.
      rewrite <- list_elem_of_In. tauto.
    + destruct filter; [| done]. rewrite !includes_empty. tauto.
Qed.

(** The filter [22] keeps the row of the process 2211, whose command and
    user have no digit. *)
Lemma filter_processes_keeps_witness :
  @process_of ExampleRuntime.runtime (tokens sample_row)
  ∈ @filter_processes ExampleRuntime.runtime
      [@process_of ExampleRuntime.runtime (tokens sample_row)] "22".
Proof.
  apply (proj2 (proj2 (@filter_processes_keeps ExampleRuntime.runtime
                         [@process_of ExampleRuntime.runtime (tokens sample_row)]
                         "22")) eq_refl).
  split.
  - apply list_elem_of_singleton. reflexivity.
  - right. right. by vm_compute.
Defined.

(** X23: the filter of the environment panel does not tell the case of the
    letters of the filter: two filters that are the same in lower case keep
    the same variables. *)
Theorem filteredVars_case_insensitive
    (envVars : list EnvironmentPanel.EnvVariable) (f g : string) :
  toLowerCase f = toLowerCase g →
  EnvironmentPanel.filteredVars envVars f = EnvironmentPanel.filteredVars envVars g.
Proof.
  intros Heq. unfold EnvironmentPanel.filteredVars.
  rewrite <- (toLowerCase_nonempty f), <- (toLowerCase_nonempty g), Heq.
  done.
Qed.

Lemma filteredVars_case_insensitive_witness :
  EnvironmentPanel.filteredVars
    [EnvironmentPanel.mkVar "PATH" "/usr/bin"; EnvironmentPanel.mkVar "HOME" "/root"]
    "Path"
  = EnvironmentPanel.filteredVars
      [EnvironmentPanel.mkVar "PATH" "/usr/bin"; EnvironmentPanel.mkVar "HOME" "/root"]
      "pATH".
Proof.
  apply (filteredVars_case_insensitive _ "Path" "pATH"). reflexivity.
Defined.
